(** * ArtworkList: selection, persistence and the cross-page walk

    A shallow embedding of [src/components/ArtworkList.tsx].

    - JavaScript numbers are IEEE 754 doubles.  Every number the component
      handles is an integer, an infinity or [NaN].  An integer-valued double
      is modelled as that integer in [Z]; [Infinity] and [-Infinity] are the
      values [Js.infinity] and [- Js.infinity] (2^1024, the first power of
      two that is no double); [NaN], which only [parseInt] produces here, is
      [None] in an [option Z]; negative zero is identified with zero.  The
      number the user types is arbitrary, so what is computed from it is
      rounded the way JavaScript rounds ([Js.double], [Js.sub], [Js.add]).
      Page numbers, page sizes, totals and identifiers come from the
      paginator and from the API; they are taken within the safe integers
      (magnitude below 2^53), where arithmetic on them is exact.
    - Strings are [string]: the UTF-8 encoding of the text, one character
      per byte.
    - Arrays are lists.  An array held in React state changes identity
      whenever a setter stores a new array; dependency arrays compare by
      identity, so the model records which setters ran ([Dirty]).
    - The React runtime is modelled as React 18 runs it: the updates issued
      by one event handler or by one promise continuation are applied as a
      batch and followed by one render; effects whose dependencies changed
      run in declaration order, each with the values of that render; updates
      issued by effects lead to a follow-up render.  The double invocation
      of effects that development builds perform under strict mode is not
      part of the model.
    - The table, checkbox, overlay and toast widgets appear only through
      what the component asks of them: the events they deliver and the
      calls [show], [hide] and [toggle].  The table keeps the cells of its
      body as they were built: the [onChange] of a row's checkbox belongs to
      the render in which the cell was built and sees the state of that
      render, which need not be the latest one.  The event [CheckRow]
      therefore carries that state. *)

From Stdlib Require Import ZArith List String Ascii Bool Lia Arith.
From Stdlib Require Import DecimalString DecimalZ QArith.
Import ListNotations.

Local Open Scope string_scope.
Local Open Scope list_scope.
Local Open Scope Z_scope.

(* ===================================================================== *)
(** ** JavaScript built-ins used by the component *)
(* ===================================================================== *)

Module Js.

(** [Array.prototype.includes] on an array of numbers. *)
Definition includes (l : list Z) (x : Z) : bool := existsb (Z.eqb x) l.

(** [Array.prototype.slice(0, k)]: a negative [k] counts from the end. *)
Definition slice0 {A : Type} (k : Z) (l : list A) : list A :=
  if 0 <=? k then firstn (Z.to_nat k) l
  else firstn (List.length l - Z.to_nat (- k))%nat l.

(** [Array.from(new Set(l))]: a [Set] keeps the first occurrence of each
    value, in insertion order. *)
Definition set_add (acc : list Z) (x : Z) : list Z :=
  if includes acc x then acc else acc ++ [x].

Definition array_from_set (l : list Z) : list Z := fold_left set_add l [].

(** [arr.length] as a number. *)
Definition len {A : Type} (l : list A) : Z := Z.of_nat (List.length l).

(** [Infinity].  A number is an integer of magnitude below [infinity], or
    one of [infinity] and [- infinity]. *)
Definition infinity : Z := 2 ^ 1024.

(** The double nearest to the integer [z], ties to the even significand
    (what the specification of ECMAScript writes as the number value of a
    mathematical value).  A double has a significand of 53 bits; a result
    of magnitude 2^1024 or more is an infinity. *)
Definition double (z : Z) : Z :=
  let m := Z.abs z in
  let v :=
    if m <? 2 ^ 53 then m
    else
      let e := Z.log2 m - 52 in
      let q := m / 2 ^ e in
      let r := m mod 2 ^ e in
      let half := 2 ^ (e - 1) in
      let q' :=
        if (half <? r) || ((r =? half) && Z.odd q) then q + 1 else q in
      q' * 2 ^ e in
  Z.sgn z * (if infinity <=? v then infinity else v).

(** [a - b] and [a + b] on numbers: the exact result, rounded.  With an
    infinite [a] and a [b] below 2^970 (every array length is) the result
    is [a], as in JavaScript. *)
Definition sub (a b : Z) : Z := double (a - b).

Definition add (a b : Z) : Z := double (a + b).

(** The white space and the line terminators of ECMAScript that take one
    byte in UTF-8: TAB, LF, VT, FF, CR and SP. *)
Definition is_space (c : ascii) : bool :=
  let n := nat_of_ascii c in
  ((9 <=? n) && (n <=? 13))%nat || (n =? 32)%nat.

(** The first byte of the encodings of the other ones. *)
Definition is_space_lead (c : ascii) : bool :=
  let n := nat_of_ascii c in
  ((n =? 194) || (n =? 225) || (n =? 226) || (n =? 227) || (n =? 239))%nat.

(** U+00A0 NO-BREAK SPACE is the bytes C2 A0. *)
Definition is_space2 (c1 c2 : ascii) : bool :=
  ((nat_of_ascii c1 =? 194) && (nat_of_ascii c2 =? 160))%nat.

(** The ones of three bytes: U+1680 (E1 9A 80), U+2000 to U+200A
    (E2 80 80 to E2 80 8A), the line and paragraph separators U+2028 and
    U+2029 (E2 80 A8, E2 80 A9), U+202F (E2 80 AF), U+205F (E2 81 9F),
    U+3000 (E3 80 80) and U+FEFF (EF BB BF). *)
Definition is_space3 (c1 c2 c3 : ascii) : bool :=
  let n1 := nat_of_ascii c1 in
  let n2 := nat_of_ascii c2 in
  let n3 := nat_of_ascii c3 in
  ((n1 =? 225) && (n2 =? 154) && (n3 =? 128)
   || (n1 =? 226) && (n2 =? 128)
      && (((128 <=? n3) && (n3 <=? 138)) || (n3 =? 168) || (n3 =? 169)
          || (n3 =? 175))
   || (n1 =? 226) && (n2 =? 129) && (n3 =? 159)
   || (n1 =? 227) && (n2 =? 128) && (n3 =? 128)
   || (n1 =? 239) && (n2 =? 187) && (n3 =? 191))%nat.

Definition digit_of (c : ascii) : option Z :=
  let n := nat_of_ascii c in
  if ((48 <=? n) && (n <=? 57))%nat then Some (Z.of_nat (n - 48)) else None.

(** Removes the leading white space and line terminators. *)
Fixpoint trim_start (s : string) : string :=
  match s with
  | String c1 s1 =>
      if is_space c1 then trim_start s1
      else if negb (is_space_lead c1) then s
      else
        match s1 with
        | String c2 s2 =>
            if is_space2 c1 c2 then trim_start s2
            else
              match s2 with
              | String c3 s3 =>
                  if is_space3 c1 c2 c3 then trim_start s3 else s
              | EmptyString => s
              end
        | EmptyString => s
        end
  | EmptyString => s
  end.

(** Reads the longest prefix of decimal digits; [acc] is the value read so
    far, [None] while no digit has been seen. *)
Fixpoint read_digits (acc : option Z) (s : string) : option Z :=
  match s with
  | EmptyString => acc
  | String c s' =>
      match digit_of c with
      | Some d =>
          read_digits (Some (10 * match acc with Some a => a | None => 0 end + d)) s'
      | None => acc
      end
  end.

(** [parseInt(s, 10)]: leading white space is skipped, one sign is
    accepted, then the longest run of digits is read and whatever follows
    is ignored.  The result is the double nearest to the integer the digits
    denote, with the sign.  No digit at all gives [NaN] ([None]). *)
Definition parseInt (s : string) : option Z :=
  match trim_start s with
  | String "-" s' => option_map (fun m => - double m) (read_digits None s')
  | String "+" s' => option_map double (read_digits None s')
  | s' => option_map double (read_digits None s')
  end.

End Js.

(* ===================================================================== *)
(** ** JSON for arrays of identifiers *)
(* ===================================================================== *)

Module Json.

Definition string_of_Z (z : Z) : string := NilZero.string_of_int (Z.to_int z).

(** A number token is accepted when it is the decimal numeral of an
    integer, written the way [JSON.stringify] writes it. *)
Definition Z_of_string (s : string) : option Z :=
  match NilZero.int_of_string s with
  | Some d =>
      let z := Z.of_int d in
      if String.eqb (string_of_Z z) s then Some z else None
  | None => None
  end.

Fixpoint join (l : list Z) : string :=
  match l with
  | [] => ""
  | [x] => string_of_Z x
  | x :: l' => (string_of_Z x ++ "," ++ join l')%string
  end.

(** [JSON.stringify] of a [number[]]. *)
Definition stringify (l : list Z) : string := ("[" ++ join l ++ "]")%string.

(** Elements after the opening bracket; [tok] is the token read so far. *)
Fixpoint parse_items (tok : string) (s : string) : option (list Z) :=
  match s with
  | EmptyString => None
  | String c s' =>
      if Ascii.eqb c "," then
        match Z_of_string tok, parse_items "" s' with
        | Some z, Some l => Some (z :: l)
        | _, _ => None
        end
      else if Ascii.eqb c "]" then
        match s', Z_of_string tok with
        | EmptyString, Some z => Some [z]
        | _, _ => None
        end
      else parse_items (tok ++ String c "")%string s'
  end.

(** [JSON.parse] restricted to the texts [stringify] produces; [None]
    stands for every other outcome (a thrown [SyntaxError], or a value
    that is not an array of integers). *)
Definition parse (s : string) : option (list Z) :=
  match s with
  | String "[" (String "]" EmptyString) => Some []
  | String "[" s' => parse_items "" s'
  | _ => None
  end.

End Json.

(* ===================================================================== *)
(** ** Numbers in template literals *)
(* ===================================================================== *)

Fixpoint strip_zeros (s : list ascii) : list ascii :=
  match s with
  | "0"%char :: s' => strip_zeros s'
  | _ => s
  end.

(** [s] without its trailing zeros. *)
Definition significant (s : string) : string :=
  string_of_list_ascii
    (rev (strip_zeros (rev (list_ascii_of_string s)))).

Fixpoint zeros (n : nat) : string :=
  match n with
  | O => ""
  | S n' => String "0" (zeros n')
  end.

(** The numeral of [k] digits that reads as the number [x] and is nearest
    to it, if there is one; [e] is the number of digits of [x] left out.
    Of two equally near, the even one. *)
Definition candidate (x e k : Z) : option Z :=
  let p := 10 ^ e in
  let lo := x / p in
  let hi := lo + 1 in
  let ok s :=
    (10 ^ (k - 1) <=? s) && (s <=? 10 ^ k) && (Js.double (s * p) =? x) in
  match ok lo, ok hi with
  | true, true =>
      let dl := x - lo * p in
      let dh := hi * p - x in
      if dl <? dh then Some lo
      else if dh <? dl then Some hi
      else if Z.even lo then Some lo else Some hi
  | true, false => Some lo
  | false, true => Some hi
  | false, false => None
  end.

(** The shortest numeral that reads as [x], which has [nd] digits, trying
    [k], [k + 1], ... digits. *)
Fixpoint shortest (fuel : nat) (x nd k : Z) : Z * Z :=
  match fuel with
  | O => (x, 0)
  | S fuel' =>
      match candidate x (nd - k) k with
      | Some s => (s, nd - k)
      | None => shortest fuel' x nd (k + 1)
      end
  end.

(** [Number.prototype.toString] on an integer or an infinity, as a template
    literal applies it: the shortest run of digits that reads as the same
    double, followed by zeros up to 21 digits, and written with an exponent
    beyond. *)
Definition number_toString (z : Z) : string :=
  if z =? 0 then "0"
  else
    let x := Z.abs z in
    let sign := if z <? 0 then "-" else "" in
    if Js.infinity <=? x then (sign ++ "Infinity")%string
    else
      let nd := Z.of_nat (String.length (Json.string_of_Z x)) in
      let (s, e) := shortest (Z.to_nat nd) x nd 1 in
      let ds := Json.string_of_Z s in
      let n := Z.of_nat (String.length ds) + e in
      let sig := significant ds in
      let k := Z.of_nat (String.length sig) in
      (sign ++
       (if (n <=? 21)%Z then sig ++ zeros (Z.to_nat (n - k)%Z)
        else
          match sig with
          | String d rest =>
              String d (if (k =? 1)%Z then "" else "." ++ rest)
                ++ "e+" ++ Json.string_of_Z (n - 1)%Z
          | EmptyString => ""
          end))%string.

(* ===================================================================== *)
(** ** Data model *)
(* ===================================================================== *)

Record Artwork := {
  id : Z;
  title : string;
  place_of_origin : string;
  artist_display : string;
  inscriptions : option string;
  date_start : Z;
  date_end : Z
}.

Record Pagination := {
  total : Z;
  limit : Z;
  offset : Z;
  total_pages : Z;
  current_page : Z
}.

Record ApiResponse := {
  data : list Artwork;
  pagination : Pagination
}.

(** [sortOrder] is [1 | -1 | null]. *)
Inductive SortOrder := Ascending | Descending.

Record LazyParams := {
  first : Z;
  rows : Z;
  page : Z;
  sortField : option string;
  sortOrder : option SortOrder
}.

(** The [useState] cells of the component. *)
Record State := {
  artworks : list Artwork;
  loading : bool;
  totalRecords : Z;
  lazyParams : LazyParams;
  selectedArtworkIds : list Z;
  selectAll : bool;
  rowSelection : string;
  pendingSelection : Z
}.

Record ToastMessage := {
  severity : string;
  summary : string;
  detail : string;
  life : Z
}.

(** How an awaited [fetch] (with its [response.json()]) ends. *)
Inductive FetchFailure :=
| NetworkError
| NotOk (status : Z)
| BodyNotJson.

Inductive FetchResult :=
| Fulfilled (body : ApiResponse)
| Rejected (why : FetchFailure).

(** A call suspended at its [await]: the URL requested and the render whose
    values the function closed over. *)
Inductive Request :=
| AwaitArtworks (url : string) (closure : State)
| AwaitNextPage (url : string) (closure : State).

(** Which state cells received a new array or object since the last
    render (dependency arrays compare these by identity). *)
Record Dirty := {
  lazyParams_set : bool;
  selectedArtworkIds_set : bool
}.

(** The component together with what it acts on: local storage (the one key
    ['selectedArtworkIds']), the toast and overlay widgets, the console and
    the requests in flight.  [crashed] records an exception that escaped an
    effect, after which the component is unmounted. *)
Record World := {
  st : State;
  changed : Dirty;
  storage : option string;
  toasts : list ToastMessage;
  overlayVisible : bool;
  console : list string;
  inflight : list Request;
  crashed : bool
}.

Definition initialState : State := {|
  artworks := [];
  loading := true;
  totalRecords := 0;
  lazyParams := {| first := 0; rows := 12; page := 1;
                   sortField := None; sortOrder := None |};
  selectedArtworkIds := [];
  selectAll := false;
  rowSelection := "";
  pendingSelection := 0
|}.

Definition clean : Dirty :=
  {| lazyParams_set := false; selectedArtworkIds_set := false |}.

(* --------------------------------------------------------------------- *)
(** *** State setters and the other primitive actions *)
(* --------------------------------------------------------------------- *)

Definition with_st (f : State -> State) (w : World) : World :=
  {| st := f (st w); changed := changed w; storage := storage w;
     toasts := toasts w; overlayVisible := overlayVisible w;
     console := console w; inflight := inflight w; crashed := crashed w |}.

Definition with_changed (d : Dirty) (w : World) : World :=
  {| st := st w; changed := d; storage := storage w;
     toasts := toasts w; overlayVisible := overlayVisible w;
     console := console w; inflight := inflight w; crashed := crashed w |}.

Definition with_inflight (l : list Request) (w : World) : World :=
  {| st := st w; changed := changed w; storage := storage w;
     toasts := toasts w; overlayVisible := overlayVisible w;
     console := console w; inflight := l; crashed := crashed w |}.

Definition setArtworks (v : list Artwork) : World -> World :=
  with_st (fun s =>
    {| artworks := v; loading := loading s; totalRecords := totalRecords s;
       lazyParams := lazyParams s; selectedArtworkIds := selectedArtworkIds s;
       selectAll := selectAll s; rowSelection := rowSelection s;
       pendingSelection := pendingSelection s |}).

Definition setLoading (v : bool) : World -> World :=
  with_st (fun s =>
    {| artworks := artworks s; loading := v; totalRecords := totalRecords s;
       lazyParams := lazyParams s; selectedArtworkIds := selectedArtworkIds s;
       selectAll := selectAll s; rowSelection := rowSelection s;
       pendingSelection := pendingSelection s |}).

Definition setTotalRecords (v : Z) : World -> World :=
  with_st (fun s =>
    {| artworks := artworks s; loading := loading s; totalRecords := v;
       lazyParams := lazyParams s; selectedArtworkIds := selectedArtworkIds s;
       selectAll := selectAll s; rowSelection := rowSelection s;
       pendingSelection := pendingSelection s |}).

Definition setLazyParams (f : LazyParams -> LazyParams) (w : World) : World :=
  with_changed
    {| lazyParams_set := true;
       selectedArtworkIds_set := selectedArtworkIds_set (changed w) |}
    (with_st (fun s =>
       {| artworks := artworks s; loading := loading s;
          totalRecords := totalRecords s; lazyParams := f (lazyParams s);
          selectedArtworkIds := selectedArtworkIds s;
          selectAll := selectAll s; rowSelection := rowSelection s;
          pendingSelection := pendingSelection s |}) w).

Definition setSelectedArtworkIds (f : list Z -> list Z) (w : World) : World :=
  with_changed
    {| lazyParams_set := lazyParams_set (changed w);
       selectedArtworkIds_set := true |}
    (with_st (fun s =>
       {| artworks := artworks s; loading := loading s;
          totalRecords := totalRecords s; lazyParams := lazyParams s;
          selectedArtworkIds := f (selectedArtworkIds s);
          selectAll := selectAll s; rowSelection := rowSelection s;
          pendingSelection := pendingSelection s |}) w).

Definition setSelectAll (v : bool) : World -> World :=
  with_st (fun s =>
    {| artworks := artworks s; loading := loading s;
       totalRecords := totalRecords s; lazyParams := lazyParams s;
       selectedArtworkIds := selectedArtworkIds s;
       selectAll := v; rowSelection := rowSelection s;
       pendingSelection := pendingSelection s |}).

Definition setRowSelection (v : string) : World -> World :=
  with_st (fun s =>
    {| artworks := artworks s; loading := loading s;
       totalRecords := totalRecords s; lazyParams := lazyParams s;
       selectedArtworkIds := selectedArtworkIds s;
       selectAll := selectAll s; rowSelection := v;
       pendingSelection := pendingSelection s |}).

Definition setPendingSelection (f : Z -> Z) : World -> World :=
  with_st (fun s =>
    {| artworks := artworks s; loading := loading s;
       totalRecords := totalRecords s; lazyParams := lazyParams s;
       selectedArtworkIds := selectedArtworkIds s;
       selectAll := selectAll s; rowSelection := rowSelection s;
       pendingSelection := f (pendingSelection s) |}).

(** [toast.current?.show(m)] *)
Definition toast_show (m : ToastMessage) (w : World) : World :=
  {| st := st w; changed := changed w; storage := storage w;
     toasts := toasts w ++ [m]; overlayVisible := overlayVisible w;
     console := console w; inflight := inflight w; crashed := crashed w |}.

(** [console.error(msg, err)] *)
Definition console_error (msg : string) (w : World) : World :=
  {| st := st w; changed := changed w; storage := storage w;
     toasts := toasts w; overlayVisible := overlayVisible w;
     console := console w ++ [msg]; inflight := inflight w;
     crashed := crashed w |}.

Definition overlay_set (v : bool) (w : World) : World :=
  {| st := st w; changed := changed w; storage := storage w;
     toasts := toasts w; overlayVisible := v;
     console := console w; inflight := inflight w; crashed := crashed w |}.

(** [localStorage.setItem('selectedArtworkIds', v)] *)
Definition localStorage_setItem (v : string) (w : World) : World :=
  {| st := st w; changed := changed w; storage := Some v;
     toasts := toasts w; overlayVisible := overlayVisible w;
     console := console w; inflight := inflight w; crashed := crashed w |}.

Definition crash (w : World) : World :=
  {| st := st w; changed := changed w; storage := storage w;
     toasts := toasts w; overlayVisible := overlayVisible w;
     console := console w; inflight := inflight w; crashed := true |}.

(** The call reaches its [await]: the request is in flight. *)
Definition await (r : Request) (w : World) : World :=
  with_inflight (inflight w ++ [r]) w.

Fixpoint remove_nth {A : Type} (i : nat) (l : list A) : list A :=
  match i, l with
  | _, [] => []
  | O, _ :: l' => l'
  | S i', x :: l' => x :: remove_nth i' l'
  end.

(* ===================================================================== *)
(** ** The component's functions

    Every function below takes the render [r] whose values it closed over
    and transforms the world.  Setters written with an updater in the source
    ([prev => ...]) read the current state; the others store a value computed
    from [r]. *)
(* ===================================================================== *)

Definition artworksUrl (p : Z) (lp : LazyParams) : string :=
  ("https://api.artic.edu/api/v1/artworks?page=" ++ Json.string_of_Z p
     ++ "&limit=" ++ Json.string_of_Z (rows lp)
     ++ "&fields=id,title,place_of_origin,artist_display,inscriptions,date_start,date_end"
     ++ match sortField lp with
        | Some f =>
            if String.eqb f "" then ""
            else "&sort_by=" ++ f
                   ++ match sortOrder lp with
                      | Some Descending => ":desc"
                      | _ => ""
                      end
        | None => ""
        end)%string.

Definition fetchArtworksFailed : ToastMessage :=
  {| severity := "error"; summary := "Error";
     detail := "Failed to fetch artworks"; life := 3000 |}.

Definition fetchNextPageFailed : ToastMessage :=
  {| severity := "error"; summary := "Error";
     detail := "Failed to fetch more artworks"; life := 3000 |}.

Definition invalidInput : ToastMessage :=
  {| severity := "error"; summary := "Invalid Input";
     detail := "Please enter a valid number of rows to select.";
     life := 3000 |}.

Definition selectionPending (numRows : Z) : ToastMessage :=
  {| severity := "info"; summary := "Selection Pending";
     detail := ("Selecting " ++ number_toString numRows
                  ++ " items. This may span multiple pages.")%string;
     life := 3000 |}.

(** [fetchArtworks], up to its [await]. *)
Definition fetchArtworks (r : State) (w : World) : World :=
  let w := setLoading true w in
  await (AwaitArtworks (artworksUrl (page (lazyParams r)) (lazyParams r)) r) w.

(** [fetchArtworks], from its [await] on. *)
Definition fetchArtworks_resume (r : State) (res : FetchResult) (w : World)
  : World :=
  let w :=
    match res with
    | Fulfilled body =>
        let w := setArtworks (data body) w in
        setTotalRecords (total (pagination body)) w
    | Rejected _ =>
        let w := console_error "An error occurred while fetching artworks:" w in
        toast_show fetchArtworksFailed w
    end in
  setLoading false w.

(** [fetchNextPage], up to its [await]. *)
Definition fetchNextPage (r : State) (w : World) : World :=
  let nextPage := page (lazyParams r) + 1 in
  await (AwaitNextPage (artworksUrl nextPage (lazyParams r)) r) w.

Definition with_page (p : Z) (prev : LazyParams) : LazyParams :=
  {| first := first prev; rows := rows prev; page := p;
     sortField := sortField prev; sortOrder := sortOrder prev |}.

(** [fetchNextPage], from its [await] on. *)
Definition fetchNextPage_resume (r : State) (res : FetchResult) (w : World)
  : World :=
  let nextPage := page (lazyParams r) + 1 in
  match res with
  | Fulfilled body =>
      let newArtworks := data body in
      let remainingToSelect :=
        Z.min (pendingSelection r) (Js.len newArtworks) in
      let newSelectedIds := map id (Js.slice0 remainingToSelect newArtworks) in
      let w := setSelectedArtworkIds (fun prev => prev ++ newSelectedIds) w in
      let w :=
        setPendingSelection (fun prev => Js.sub prev remainingToSelect) w in
      if (remainingToSelect <? Js.len newArtworks)
         || (totalRecords r <=? nextPage * rows (lazyParams r))
      then setPendingSelection (fun _ => 0) w
      else setLazyParams (with_page nextPage) w
  | Rejected _ =>
      let w :=
        console_error "An error occurred while fetching the next page:" w in
      let w := toast_show fetchNextPageFailed w in
      setPendingSelection (fun _ => 0) w
  end.

(** [onPage]; [event.page] counts from 0, the API from 1. *)
Definition onPage (ev_first ev_rows ev_page : Z) (w : World) : World :=
  setLazyParams (fun prevParams =>
    {| first := ev_first; rows := ev_rows; page := ev_page + 1;
       sortField := sortField prevParams;
       sortOrder := sortOrder prevParams |}) w.

Definition onSort (ev_field : string) (ev_order : SortOrder) (w : World)
  : World :=
  setLazyParams (fun prevParams =>
    {| first := first prevParams; rows := rows prevParams;
       page := page prevParams;
       sortField := Some ev_field; sortOrder := Some ev_order |}) w.

Definition toggleOverlay (w : World) : World :=
  overlay_set (negb (overlayVisible w)) w.

Definition handleSubmit (r : State) (w : World) : World :=
  match Js.parseInt (rowSelection r) with
  | None => toast_show invalidInput w
  | Some numRows =>
      if numRows <? 0 then toast_show invalidInput w
      else
        let currentPageIds := map id (artworks r) in
        let remainingSelection :=
          filter (fun i => negb (Js.includes currentPageIds i))
                 (selectedArtworkIds r) in
        let newSelection :=
          remainingSelection
            ++ Js.slice0 (Z.min numRows (Js.len currentPageIds)) currentPageIds in
        let w := setSelectedArtworkIds (fun _ => newSelection) w in
        let w :=
          setPendingSelection
            (fun _ => Z.max 0 (Js.sub numRows (Js.len currentPageIds))) w in
        let w :=
          setSelectAll
            (Js.add (Js.len newSelection)
               (Z.max 0 (Js.sub numRows (Js.len currentPageIds)))
               =? totalRecords r) w in
        let w := overlay_set false w in
        if Js.len currentPageIds <? numRows
        then toast_show (selectionPending numRows) w
        else w
  end.

(** The [onChange] of a row's checkbox ([checkboxTemplate]). *)
Definition checkboxTemplate_onChange (r : State) (rowData : Artwork)
  (checked : bool) (w : World) : World :=
  let newSelection :=
    if checked then selectedArtworkIds r ++ [id rowData]
    else filter (fun i => negb (i =? id rowData)) (selectedArtworkIds r) in
  let w := setSelectedArtworkIds (fun _ => newSelection) w in
  setSelectAll (Js.len newSelection =? totalRecords r) w.

(** The [onChange] of the header checkbox ([selectAllTemplate]). *)
Definition selectAllTemplate_onChange (r : State) (checked : bool) (w : World)
  : World :=
  if checked then
    let allIds := map id (artworks r) in
    setSelectedArtworkIds
      (fun prevIds => Js.array_from_set (prevIds ++ allIds)) w
  else
    let currentPageIds := map id (artworks r) in
    setSelectedArtworkIds
      (fun prevIds =>
         filter (fun i => negb (Js.includes currentPageIds i)) prevIds) w.

(* --------------------------------------------------------------------- *)
(** *** The three effects, in declaration order *)
(* --------------------------------------------------------------------- *)

(** [useEffect(..., [lazyParams])]: load the page, then read the stored
    selection.  A stored text is used when it is truthy (not empty). *)
Definition effect_lazyParams (r : State) (w : World) : World :=
  let w := fetchArtworks r w in
  match storage w with
  | Some storedSelection =>
      if String.eqb storedSelection "" then w
      else
        match Json.parse storedSelection with
        | Some ids => setSelectedArtworkIds (fun _ => ids) w
        | None => crash w
        end
  | None => w
  end.

(** [useEffect(..., [selectedArtworkIds])] *)
Definition effect_selectedArtworkIds (r : State) (w : World) : World :=
  localStorage_setItem (Json.stringify (selectedArtworkIds r)) w.

(** [useEffect(..., [pendingSelection, selectedArtworkIds])] *)
Definition effect_pendingSelection (r : State) (w : World) : World :=
  if 0 <? pendingSelection r then fetchNextPage r w else w.

(* --------------------------------------------------------------------- *)
(** *** Rendering *)
(* --------------------------------------------------------------------- *)

(** One render followed by its effects.  [before] is the previous render
    ([None] when the component mounts, where every effect runs). *)
Definition render (before : option State) (w : World) : World :=
  if crashed w then w
  else
    let r := st w in
    let mounting := match before with None => true | Some _ => false end in
    let lp := mounting || lazyParams_set (changed w) in
    let sel := mounting || selectedArtworkIds_set (changed w) in
    let pend :=
      match before with
      | None => true
      | Some b => negb (pendingSelection b =? pendingSelection r)
      end in
    let w := with_changed clean w in
    let w := if lp then effect_lazyParams r w else w in
    let w := if sel then effect_selectedArtworkIds r w else w in
    if pend || sel then effect_pendingSelection r w else w.

(** Renders until the effects issue no further update: the effects of the
    first render may set state ([effect_lazyParams]); those of the second
    cannot, as [lazyParams] is not set by any effect. *)
Definition commit (before : option State) (w : World) : World :=
  let r := st w in
  render (Some r) (render before w).

Definition mount (stored : option string) : World :=
  commit None
    {| st := initialState; changed := clean; storage := stored;
       toasts := []; overlayVisible := false; console := [];
       inflight := []; crashed := false |}.

(** What can happen to a mounted component.  A click on a row's checkbox
    comes with [cell], the state of the render in which the table built the
    cell: the handler of that render is the one that runs. *)
Inductive Event :=
| CheckRow (cell : State) (rowData : Artwork) (checked : bool)
| CheckAll (checked : bool)
| TypeRowSelection (value : string)
| Submit
| PageChange (ev_first ev_rows ev_page : Z)
| SortChange (ev_field : string) (ev_order : SortOrder)
| OverlayButton
| Settle (i : nat) (res : FetchResult).

(** The updates an event issues, as one batch. *)
Definition handle (e : Event) (w : World) : World :=
  let r := st w in
  match e with
  | CheckRow cell rowData checked =>
      checkboxTemplate_onChange cell rowData checked w
  | CheckAll checked => selectAllTemplate_onChange r checked w
  | TypeRowSelection value => setRowSelection value w
  | Submit => handleSubmit r w
  | PageChange f n p => onPage f n p w
  | SortChange f o => onSort f o w
  | OverlayButton => toggleOverlay w
  | Settle i res =>
      match nth_error (inflight w) i with
      | Some (AwaitArtworks _ closure) =>
          fetchArtworks_resume closure res
            (with_inflight (remove_nth i (inflight w)) w)
      | Some (AwaitNextPage _ closure) =>
          fetchNextPage_resume closure res
            (with_inflight (remove_nth i (inflight w)) w)
      | None => w
      end
  end.

Definition step (e : Event) (w : World) : World :=
  if crashed w then w
  else commit (Some (st w)) (handle e (with_changed clean w)).

Definition run (es : list Event) (w : World) : World :=
  fold_left (fun w e => step e w) es w.

(* ===================================================================== *)
(** ** The wording of the input-validation rule

    The rule speaks of a requested count that is "non-numeric or negative".
    [numeral_value] reads a text as a decimal numeral (an optional sign,
    digits, an optional fraction) and gives its value; a text that is not a
    numeral has no value.  These definitions follow the rule's words, not
    the code, and serve to compare the two. *)
(* ===================================================================== *)

Module Wording.

Fixpoint digits_value (acc : Z) (s : string) : option Z :=
  match s with
  | EmptyString => Some acc
  | String c s' =>
      match Js.digit_of c with
      | Some d => digits_value (10 * acc + d) s'
      | None => None
      end
  end.

Fixpoint split_dot (s : string) : string * option string :=
  match s with
  | EmptyString => (EmptyString, None)
  | String c s' =>
      if Ascii.eqb c "." then (EmptyString, Some s')
      else let (a, b) := split_dot s' in (String c a, b)
  end.

Definition unsigned_value (s : string) : option Q :=
  match split_dot s with
  | (EmptyString, _) => None
  | (whole, None) => option_map inject_Z (digits_value 0 whole)
  | (_, Some EmptyString) => None
  | (whole, Some frac) =>
      match digits_value 0 whole, digits_value 0 frac with
      | Some a, Some b =>
          Some (inject_Z a
                + inject_Z b / inject_Z (10 ^ Z.of_nat (String.length frac)))%Q
      | _, _ => None
      end
  end.

Definition numeral_value (s : string) : option Q :=
  match s with
  | String "-" s' => option_map Qopp (unsigned_value s')
  | String "+" s' => unsigned_value s'
  | _ => unsigned_value s
  end.

Definition non_numeric (s : string) : Prop := numeral_value s = None.

Definition denotes_negative (s : string) : Prop :=
  exists q, numeral_value s = Some q /\ (q < 0)%Q.

End Wording.

(* ===================================================================== *)
(** ** Properties stated about worlds *)
(* ===================================================================== *)

(** Local storage holds the serialization of the selection in memory. *)
Definition Persisted (w : World) : Prop :=
  storage w = Some (Json.stringify (selectedArtworkIds (st w))).

Definition is_next_page (r : Request) : bool :=
  match r with
  | AwaitNextPage _ _ => true
  | AwaitArtworks _ _ => false
  end.

(** No fetch of a next page is outstanding. *)
Definition walk_over (w : World) : Prop :=
  existsb is_next_page (inflight w) = false.

(* ===================================================================== *)
(** ** Sample data: records numbered from 1, twelve to a page *)
(* ===================================================================== *)

Definition sample (i : Z) : Artwork :=
  {| id := i; title := "Untitled"; place_of_origin := "";
     artist_display := ""; inscriptions := None;
     date_start := 1900; date_end := 1900 |}.

(** The body the API returns for page [n] (from 1) of [tot] records. *)
Definition sample_page (n tot : Z) : FetchResult :=
  Fulfilled
    {| data := map (fun k => sample (12 * (n - 1) + Z.of_nat k)) (seq 1 12);
       pagination := {| total := tot; limit := 12; offset := 12 * (n - 1);
                        total_pages := (tot + 11) / 12; current_page := n |} |}.

(* ===================================================================== *)
(** ** Auxiliary definitions for the proofs *)
(* ===================================================================== *)

(** A text without the two characters that delimit array elements. *)
Fixpoint plain (s : string) : bool :=
  match s with
  | EmptyString => true
  | String c s' => negb (Ascii.eqb c ",") && negb (Ascii.eqb c "]") && plain s'
  end.

(** The effects that run when [lazyParams] kept its identity. *)
Definition quiet_effects (b : State) (h : World) : World :=
  let r := st h in
  let sel := selectedArtworkIds_set (changed h) in
  let pend := negb (pendingSelection b =? pendingSelection r) in
  let w := with_changed clean h in
  let w := if sel then effect_selectedArtworkIds r w else w in
  if pend || sel then effect_pendingSelection r w else w.

(** The selection [handleSubmit] stores for an accepted count [n]. *)
Definition submitted_selection (r : State) (n : Z) : list Z :=
  let currentPageIds := map id (artworks r) in
  filter (fun i => negb (Js.includes currentPageIds i)) (selectedArtworkIds r)
    ++ Js.slice0 (Z.min n (Js.len currentPageIds)) currentPageIds.

(** The closure a suspended call resumes with. *)
Definition closure_of (r : Request) : State :=
  match r with
  | AwaitArtworks _ c => c
  | AwaitNextPage _ c => c
  end.

(** A bound on the fetches a request can still cause, for at most [T]
    records in all: a page load causes none; a next-page fetch issued on
    page [p] can advance to page [p + 1], where one page load and at most
    two further next-page fetches are issued. *)
Definition weight (T : Z) (r : Request) : Z :=
  match r with
  | AwaitArtworks _ _ => 1
  | AwaitNextPage _ c => 4 ^ Z.max 0 (T - page (lazyParams c))
  end.

Definition load (T : Z) (l : list Request) : Z :=
  fold_right (fun r acc => weight T r + acc) 0 l.

(** Page sizes are positive, page numbers are not negative, and no more
    than [T] records are reported. *)
Definition sane (T : Z) (s : State) : Prop :=
  1 <= rows (lazyParams s) /\ 0 <= page (lazyParams s) /\ totalRecords s <= T.

Definition Sane (T : Z) (w : World) : Prop :=
  crashed w = false
  /\ Persisted w
  /\ sane T (st w)
  /\ Forall (fun r => sane T (closure_of r)) (inflight w).

Definition reports_at_most (T : Z) (res : FetchResult) : Prop :=
  match res with
  | Fulfilled body => total (pagination body) <= T
  | Rejected _ => True
  end.

(** [answers T es w]: [es] settles, one after the other and in any order,
    requests that are in flight when their answer arrives. *)
Fixpoint answers (T : Z) (es : list (nat * FetchResult)) (w : World) : Prop :=
  match es with
  | [] => True
  | (i, res) :: es' =>
      (i < List.length (inflight w))%nat
      /\ reports_at_most T res
      /\ answers T es' (step (Settle i res) w)
  end.

Definition settle_all (es : list (nat * FetchResult)) (w : World) : World :=
  run (map (fun a => Settle (fst a) (snd a)) es) w.

(** While a count is pending, a next-page fetch is in flight. *)
Definition Walking (w : World) : Prop :=
  0 < pendingSelection (st w) -> existsb is_next_page (inflight w) = true.

Definition url_of (r : Request) : string :=
  match r with
  | AwaitArtworks u _ => u
  | AwaitNextPage u _ => u
  end.

(** The requests in flight are answered oldest first by [server], which maps
    the URL requested to the outcome of the fetch, until none is left or
    [fuel] answers have been given. *)
Fixpoint drain (server : string -> FetchResult) (fuel : nat) (w : World)
  : World :=
  match fuel with
  | O => w
  | S fuel' =>
      match inflight w with
      | [] => w
      | r :: _ => drain server fuel' (step (Settle 0 (server (url_of r))) w)
      end
  end.

(** A catalogue of 120 records served twelve to a page: the page number is
    read from the URL, after "https://api.artic.edu/api/v1/artworks?page=". *)
Definition sample_server (url : string) : FetchResult :=
  match Js.parseInt (String.substring 43 (String.length url - 43) url) with
  | Some n => sample_page n 120
  | None => Rejected (NotOk 400)
  end.

(** The page a next-page fetch asks for ends the catalogue, as far as the
    render that issued the fetch knows its size. *)
Definition exhausted (c : State) : bool :=
  totalRecords c <=? (page (lazyParams c) + 1) * rows (lazyParams c).

(** The test under which the continuation of [fetchNextPage] resets the
    pending count. *)
Definition forced (c : State) (body : ApiResponse) : bool :=
  (Z.min (pendingSelection c) (Js.len (data body)) <? Js.len (data body))
  || exhausted c.





(** While a count is pending, a next-page fetch issued for that count is in
    flight. *)
Definition Tracking (w : World) : Prop :=
  0 < pendingSelection (st w) ->
  exists u c, In (AwaitNextPage u c) (inflight w)
              /\ pendingSelection c = pendingSelection (st w).


(* ===================================================================== *)
(** ** What the table shows *)
(* ===================================================================== *)

(** [dateRangeTemplate]: the text of the "Date Range" cell. *)
Definition dateRangeTemplate (rowData : Artwork) : string :=
  (Json.string_of_Z (date_start rowData) ++ " - "
     ++ Json.string_of_Z (date_end rowData))%string.

(** The [checked] property of a row's checkbox ([checkboxTemplate]). *)
Definition checkboxTemplate_checked (r : State) (rowData : Artwork) : bool :=
  Js.includes (selectedArtworkIds r) (id rowData).

(** The [checked] property of the header checkbox ([selectAllTemplate]):
    [artworks.every(...)], which holds of an empty page. *)
Definition selectAllTemplate_checked (r : State) : bool :=
  forallb (fun artwork => Js.includes (selectedArtworkIds r) (id artwork))
          (artworks r).

(** A text in which the character [c] does not occur. *)
Fixpoint lacks (c : ascii) (s : string) : bool :=
  match s with
  | EmptyString => true
  | String a s' => negb (Ascii.eqb a c) && lacks c s'
  end.

(** The value of a decimal numeral read from the left, [acc] being the
    value of the digits already read. *)
Fixpoint uint_val (acc : Z) (d : Decimal.uint) : Z :=
  match d with
  | Decimal.Nil => acc
  | Decimal.D0 d' => uint_val (10 * acc + 0) d'
  | Decimal.D1 d' => uint_val (10 * acc + 1) d'
  | Decimal.D2 d' => uint_val (10 * acc + 2) d'
  | Decimal.D3 d' => uint_val (10 * acc + 3) d'
  | Decimal.D4 d' => uint_val (10 * acc + 4) d'
  | Decimal.D5 d' => uint_val (10 * acc + 5) d'
  | Decimal.D6 d' => uint_val (10 * acc + 6) d'
  | Decimal.D7 d' => uint_val (10 * acc + 7) d'
  | Decimal.D8 d' => uint_val (10 * acc + 8) d'
  | Decimal.D9 d' => uint_val (10 * acc + 9) d'
  end.

(** The text does not begin with a decimal digit. *)
Definition no_leading_digit (s : string) : Prop :=
  match s with
  | EmptyString => True
  | String c _ => Js.digit_of c = None
  end.

(** The render after the [lazyParams] effect has run over storage holding
    the selection [l]: the page is loading and the selection is [l]. *)
Definition reloaded (l : list Z) (r : State) : State :=
  {| artworks := artworks r; loading := true;
     totalRecords := totalRecords r; lazyParams := lazyParams r;
     selectedArtworkIds := l; selectAll := selectAll r;
     rowSelection := rowSelection r;
     pendingSelection := pendingSelection r |}.

(** The request [fetchNextPage] issues from the render [r]. *)
Definition next_page_request (r : State) : Request :=
  AwaitNextPage (artworksUrl (page (lazyParams r) + 1) (lazyParams r)) r.

(** The request [fetchArtworks] issues from the render [r]. *)
Definition page_request (r : State) : Request :=
  AwaitArtworks (artworksUrl (page (lazyParams r)) (lazyParams r)) r.

(** A catalogue of three records, all on its only page. *)
Definition small_page : FetchResult :=
  Fulfilled
    {| data := [sample 1; sample 2; sample 3];
       pagination := {| total := 3; limit := 12; offset := 0;
                        total_pages := 1; current_page := 1 |} |}.

(** What the API answers for a page past the end of that catalogue. *)
Definition past_the_end : FetchResult :=
  Fulfilled
    {| data := [];
       pagination := {| total := 3; limit := 12; offset := 12;
                        total_pages := 1; current_page := 2 |} |}.

(** That page is shown and 5 has been submitted: two are pending. *)
Definition world_small : World :=
  run [Settle 0 small_page; TypeRowSelection "5"; Submit] (mount None).

(** The component is mounted over an empty storage and the first page of
    120 records arrives. *)
Definition world_first_page : World :=
  step (Settle 0 (sample_page 1 120)) (mount None).

(** The component is mounted over an empty storage, the first page of 120
    records arrives, the paginator moves to the second page and that page
    arrives. *)
Definition world_second_page : World :=
  run [Settle 0 (sample_page 1 120);
       PageChange 12 12 1; Settle 0 (sample_page 2 120)]
      (mount None).

(** The selection [4] was stored by an earlier visit; the first page of 120
    records is shown.  The table builds its cells in this render. *)
Definition world_restored : World :=
  run [Settle 0 (sample_page 1 120)] (mount (Some "[4]")).

(** Then 13 is typed and submitted, and the second page arrives. *)
Definition world_restored_13 : World :=
  run [TypeRowSelection "13"; Submit; Settle 0 (sample_page 2 120)]
      world_restored.

(** Or the header box is checked. *)
Definition world_restored_all : World := step (CheckAll true) world_restored.

(** The first page of 120 records is shown and [text] has been typed into
    the count field. *)
Definition world_typed (text : string) : World :=
  run [Settle 0 (sample_page 1 120); TypeRowSelection text] (mount None).

(** The same, with every record of the page selected beforehand. *)
Definition world_all_checked (text : string) : World :=
  run [Settle 0 (sample_page 1 120); CheckAll true; TypeRowSelection text]
      (mount None).



Example parseInt_examples :
  Js.parseInt "15" = Some 15 /\ Js.parseInt "  -7" = Some (-7) /\
  Js.parseInt "" = None /\ Js.parseInt "abc" = None /\
  Js.parseInt "12abc" = Some 12 /\ Js.parseInt "-0.5" = Some 0 /\
  Js.parseInt "-.5" = None /\ Js.parseInt "+3" = Some 3.
Proof. repeat split; reflexivity. Qed.

(** [parseInt] skips NO-BREAK SPACE (C2 A0) and the byte order mark
    (EF BB BF) like any white space, and gives the nearest double: 2^53 + 1
    is read as 2^53, and a numeral beyond the doubles as [Infinity]. *)
Example parseInt_number_examples :
  Js.parseInt (String (ascii_of_nat 194) (String (ascii_of_nat 160) "5"))
    = Some 5
  /\ Js.parseInt
       (String (ascii_of_nat 239)
          (String (ascii_of_nat 187) (String (ascii_of_nat 191) " 7")))
     = Some 7
  /\ Js.parseInt "9007199254740993" = Some 9007199254740992
  /\ Js.parseInt "-9007199254740995" = Some (-9007199254740996)
  /\ Js.parseInt (String "1" (zeros 400)) = Some Js.infinity.
Proof. repeat split; vm_compute; reflexivity. Qed.

(** Numbers print with the fewest digits that read back as the same
    double. *)
Example number_toString_examples :
  number_toString 36 = "36"
  /\ number_toString (2 ^ 60) = "1152921504606847000"
  /\ number_toString (10 ^ 21) = "1e+21"
  /\ number_toString (Js.double 123456789012345678901234567890)
     = "1.2345678901234568e+29"
  /\ number_toString (- 5) = "-5"
  /\ number_toString Js.infinity = "Infinity"
  /\ detail (selectionPending (2 ^ 60))
     = "Selecting 1152921504606847000 items. This may span multiple pages.".
Proof. repeat split; vm_compute; reflexivity. Qed.

Example wording_examples :
  Wording.non_numeric "12abc" /\ Js.parseInt "12abc" = Some 12 /\
  Wording.non_numeric "" /\ Js.parseInt "" = None /\
  Wording.numeral_value "-3" = Some (-3 # 1)%Q /\ Js.parseInt "-3" = Some (-3).
Proof. repeat split; reflexivity. Qed.

Example json_examples :
  Json.stringify [13; -2; 0] = "[13,-2,0]" /\
  Json.parse "[13,-2,0]" = Some [13; -2; 0] /\
  Json.parse "[]" = Some [] /\ Json.stringify [] = "[]" /\
  Json.parse "[1,]" = None /\ Json.parse "[01]" = None /\
  Json.parse "oops" = None.
Proof. repeat split; reflexivity. Qed.


(* ===================================================================== *)
(** ** Facts about rounding *)
(* ===================================================================== *)

Module JsFacts.

Lemma infinity_pos : 0 < Js.infinity.
Proof. unfold Js.infinity. apply Z.pow_pos_nonneg; lia. Qed.

(** Rounding a positive integer gives a positive number. *)
Lemma double_pos z : 0 < z -> 0 < Js.double z.
Proof.
  intro Hz. unfold Js.double.
  rewrite (Z.abs_eq z) by lia. rewrite (Z.sgn_pos z) by lia.
  rewrite Z.mul_1_l.
  pose proof infinity_pos as Hinf.
  destruct (z <? 2 ^ 53) eqn:E.
  - destruct (Js.infinity <=? z); lia.
  - apply Z.ltb_ge in E.
    set (e := Z.log2 z - 52).
    assert (H53 : 0 < 2 ^ 53) by (apply Z.pow_pos_nonneg; lia).
    assert (Hlog : 53 <= Z.log2 z).
    { apply Z.log2_le_pow2; lia. }
    assert (He : 0 < 2 ^ e) by (apply Z.pow_pos_nonneg; unfold e; lia).
    assert (Hq : 0 < z / 2 ^ e).
    { apply Z.div_str_pos. split; [exact He|].
      transitivity (2 ^ Z.log2 z).
      - apply Z.pow_le_mono_r; unfold e; lia.
      - apply Z.log2_spec; lia. }
    match goal with
    | |- 0 < (if _ <=? ?v then _ else _) => assert (Hv : 0 < v)
    end.
    { destruct ((2 ^ (e - 1) <? z mod 2 ^ e)
                || (z mod 2 ^ e =? 2 ^ (e - 1)) && Z.odd (z / 2 ^ e)); nia. }
    match goal with
    | |- 0 < (if ?c then _ else _) => destruct c
    end; lia.
Qed.

Lemma double_0 : Js.double 0 = 0.
Proof. reflexivity. Qed.

Lemma double_opp z : Js.double (- z) = - Js.double z.
Proof.
  unfold Js.double. rewrite Z.abs_opp, Z.sgn_opp. lia.
Qed.

Lemma double_nonneg z : 0 <= z -> 0 <= Js.double z.
Proof.
  intro Hz. destruct (Z.eq_dec z 0) as [->|Hne].
  - rewrite double_0. lia.
  - pose proof (double_pos z). lia.
Qed.

Lemma double_nonpos z : z <= 0 -> Js.double z <= 0.
Proof.
  intro Hz. pose proof (double_nonneg (- z)) as H.
  rewrite double_opp in H. lia.
Qed.

(** Integers below 2^53 in magnitude are doubles. *)
Lemma double_small z : Z.abs z < 2 ^ 53 -> Js.double z = z.
Proof.
  intro Hz. unfold Js.double.
  apply Z.ltb_lt in Hz as Hb. rewrite Hb.
  assert (Hinf : Z.abs z < Js.infinity).
  { eapply Z.lt_trans; [exact Hz|]. reflexivity. }
  apply Z.leb_gt in Hinf. rewrite Hinf.
  rewrite Z.mul_comm. rewrite <- Z.abs_sgn. 
  pose proof (Z.sgn_abs z). lia.
Qed.

Lemma sub_nonpos a b : a <= b -> Js.sub a b <= 0.
Proof. intro H. apply double_nonpos. lia. Qed.

Lemma sub_pos a b : b < a -> 0 < Js.sub a b.
Proof. intro H. apply double_pos. lia. Qed.


End JsFacts.

(* ===================================================================== *)
(** ** JSON: what is stored is read back unchanged *)
(* ===================================================================== *)

Module JsonFacts.
Import Json.

Lemma plain_uint (d : Decimal.uint) : plain (NilEmpty.string_of_uint d) = true.
Proof. induction d; simpl; auto. Qed.

Lemma plain_string_of_Z (z : Z) : plain (string_of_Z z) = true.
Proof.
  unfold string_of_Z.
  destruct z as [|p|p]; simpl; try reflexivity;
    destruct (Pos.to_uint p) eqn:E; simpl; auto using plain_uint;
    exact (plain_uint _).
Qed.

Lemma string_of_Z_nonempty (z : Z) :
  exists c s, string_of_Z z = String c s.
Proof.
  unfold string_of_Z.
  destruct z as [|p|p]; simpl; eauto.
  pose proof (DecimalPos.Unsigned.to_uint_nonnil p) as H.
  destruct (Pos.to_uint p); simpl; eauto; congruence.
Qed.

Lemma Z_of_string_of_Z (z : Z) : Z_of_string (string_of_Z z) = Some z.
Proof.
  unfold Z_of_string, string_of_Z.
  rewrite NilZero.isi.
  - rewrite DecimalZ.of_to, String.eqb_refl. reflexivity.
  - destruct z as [|p|p]; simpl; try discriminate.
    intros [= H]. exact (DecimalPos.Unsigned.to_uint_nonnil p H).
  - destruct z as [|p|p]; simpl; try discriminate.
    intros [= H]. exact (DecimalPos.Unsigned.to_uint_nonnil p H).
Qed.

Lemma append_assoc (a b c : string) :
  ((a ++ b) ++ c = a ++ (b ++ c))%string.
Proof. induction a; simpl; congruence. Qed.

Lemma append_empty_r (a : string) : (a ++ "" = a)%string.
Proof. induction a; simpl; congruence. Qed.

(** Reading a plain text only extends the current token. *)
Lemma parse_items_plain (u : string) :
  plain u = true ->
  forall tok rest,
    parse_items tok (u ++ rest)%string = parse_items (tok ++ u)%string rest.
Proof.
  induction u as [|c u IH]; simpl; intros Hp tok rest.
  - now rewrite append_empty_r.
  - apply andb_prop in Hp as [Hc Hu]. apply andb_prop in Hc as [Hc1 Hc2].
    apply negb_true_iff in Hc1, Hc2. rewrite Hc1, Hc2.
    rewrite (IH Hu), append_assoc. reflexivity.
Qed.

Lemma parse_items_comma (tok s : string) :
  parse_items tok (String "," s) =
  match Z_of_string tok, parse_items "" s with
  | Some z, Some l => Some (z :: l)
  | _, _ => None
  end.
Proof. reflexivity. Qed.

Lemma parse_items_join (x : Z) (l : list Z) :
  parse_items "" (join (x :: l) ++ "]")%string = Some (x :: l).
Proof.
  revert x. induction l as [|y l IH]; intros x.
  - simpl join. rewrite (parse_items_plain _ (plain_string_of_Z x)).
    simpl. now rewrite Z_of_string_of_Z.
  - change (join (x :: y :: l))
      with (string_of_Z x ++ "," ++ join (y :: l))%string.
    remember (join (y :: l)) as J eqn:EJ.
    rewrite append_assoc, (parse_items_plain _ (plain_string_of_Z x)).
    change (("," ++ J) ++ "]")%string with (String "," (J ++ "]")).
    rewrite parse_items_comma. subst J. rewrite IH.
    change ("" ++ string_of_Z x)%string with (string_of_Z x).
    now rewrite Z_of_string_of_Z.
Qed.

Lemma parse_stringify (l : list Z) : parse (stringify l) = Some l.
Proof.
  destruct l as [|x l]; [reflexivity|].
  pose proof (parse_items_join x l) as H.
  destruct (string_of_Z_nonempty x) as (c & s & E).
  pose proof (plain_string_of_Z x) as Hp. rewrite E in Hp. simpl in Hp.
  apply andb_prop in Hp as [Hc _]. apply andb_prop in Hc as [_ Hc].
  apply negb_true_iff in Hc.
  assert (Hj : exists t, (join (x :: l) ++ "]")%string = String c t).
  { destruct l; simpl join; rewrite E; simpl; eauto. }
  destruct Hj as [t Ht].
  change (stringify (x :: l)) with (String "[" (join (x :: l) ++ "]")).
  rewrite Ht in *. unfold parse.
  destruct t as [|c' t'].
  - destruct (Ascii.eqb_spec c "]") as [->|Hne]; [discriminate|].
    destruct c as [[] [] [] [] [] [] [] []]; try exact H; now elim Hne.
  - destruct c as [[] [] [] [] [] [] [] []]; exact H.
Qed.

Lemma stringify_truthy (l : list Z) : String.eqb (stringify l) "" = false.
Proof. reflexivity. Qed.

End JsonFacts.

Arguments Json.stringify : simpl never.
Arguments Json.parse : simpl never.
Arguments artworksUrl : simpl never.

(* ===================================================================== *)
(** ** Rendering: what a step leaves behind *)
(* ===================================================================== *)

Lemma with_changed_idem (w : World) :
  changed w = clean -> with_changed clean w = w.
Proof. destruct w; simpl; intros ->; reflexivity. Qed.

(** A render after which nothing changed runs no effect. *)
Lemma render_settled (b : State) (w : World) :
  changed w = clean ->
  pendingSelection b = pendingSelection (st w) ->
  render (Some b) w = w.
Proof.
  intros Hc Hp. unfold render.
  destruct (crashed w); [reflexivity|].
  rewrite Hc, Hp, Z.eqb_refl. simpl.
  now apply with_changed_idem.
Qed.

Lemma quiet_effects_st b h : st (quiet_effects b h) = st h.
Proof.
  unfold quiet_effects, effect_pendingSelection, effect_selectedArtworkIds,
    fetchNextPage.
  destruct (selectedArtworkIds_set (changed h)),
    (negb (pendingSelection b =? pendingSelection (st h))),
    (0 <? pendingSelection (st h)); reflexivity.
Qed.

Lemma quiet_effects_changed b h : changed (quiet_effects b h) = clean.
Proof.
  unfold quiet_effects, effect_pendingSelection, effect_selectedArtworkIds,
    fetchNextPage.
  destruct (selectedArtworkIds_set (changed h)),
    (negb (pendingSelection b =? pendingSelection (st h))),
    (0 <? pendingSelection (st h)); reflexivity.
Qed.

Lemma quiet_effects_toasts b h : toasts (quiet_effects b h) = toasts h.
Proof.
  unfold quiet_effects, effect_pendingSelection, effect_selectedArtworkIds,
    fetchNextPage.
  destruct (selectedArtworkIds_set (changed h)),
    (negb (pendingSelection b =? pendingSelection (st h))),
    (0 <? pendingSelection (st h)); reflexivity.
Qed.

Lemma commit_quiet (b : State) (h : World) :
  crashed h = false ->
  lazyParams_set (changed h) = false ->
  commit (Some b) h = quiet_effects b h.
Proof.
  intros Hcr Hlp. unfold commit.
  assert (E : render (Some b) h = quiet_effects b h).
  { unfold render, quiet_effects. rewrite Hcr, Hlp. reflexivity. }
  rewrite E. apply render_settled.
  - apply quiet_effects_changed.
  - now rewrite quiet_effects_st.
Qed.

(** A step whose handler leaves [lazyParams] alone. *)
Lemma step_quiet (e : Event) (w : World) :
  crashed w = false ->
  crashed (handle e (with_changed clean w)) = false ->
  lazyParams_set (changed (handle e (with_changed clean w))) = false ->
  step e w = quiet_effects (st w) (handle e (with_changed clean w)).
Proof.
  intros Hcr Hh Hlp. unfold step. rewrite Hcr. now apply commit_quiet.
Qed.

(* --------------------------------------------------------------------- *)
(** *** Facts about the list operations *)
(* --------------------------------------------------------------------- *)

Lemma includes_In (l : list Z) (x : Z) : Js.includes l x = true <-> In x l.
Proof.
  unfold Js.includes. rewrite existsb_exists. split.
  - intros (y & Hy & E). apply Z.eqb_eq in E. now subst.
  - intros H. exists x. split; [assumption | apply Z.eqb_refl].
Qed.

Lemma includes_not_In (l : list Z) (x : Z) :
  Js.includes l x = false <-> ~ In x l.
Proof.
  rewrite <- includes_In. destruct (Js.includes l x); split; congruence.
Qed.

Lemma slice0_firstn {A : Type} (k : Z) (l : list A) :
  0 <= k -> Js.slice0 k l = firstn (Z.to_nat k) l.
Proof.
  intros H. unfold Js.slice0.
  destruct (Z.leb_spec 0 k); [reflexivity | lia].
Qed.

Lemma slice0_all {A : Type} (k : Z) (l : list A) :
  Js.len l <= k -> Js.slice0 k l = l.
Proof.
  intros H. unfold Js.len in H. rewrite slice0_firstn by lia.
  apply firstn_all2. lia.
Qed.

Lemma set_add_spec (acc : list Z) (x y : Z) :
  In y (Js.set_add acc x) <-> In y acc \/ y = x.
Proof.
  unfold Js.set_add. destruct (Js.includes acc x) eqn:E.
  - apply includes_In in E. split; [tauto|]. intros [H| ->]; assumption.
  - rewrite in_app_iff. simpl. intuition.
Qed.

Lemma set_add_NoDup (acc : list Z) (x : Z) :
  NoDup acc -> NoDup (Js.set_add acc x).
Proof.
  intros H. unfold Js.set_add. destruct (Js.includes acc x) eqn:E; [assumption|].
  apply includes_not_In in E.
  apply NoDup_app; [assumption | repeat constructor; simpl; tauto |].
  intros y Hy [<-|[]]. contradiction.
Qed.

Lemma fold_set_add_NoDup (l acc : list Z) :
  NoDup acc -> NoDup (fold_left Js.set_add l acc).
Proof.
  revert acc. induction l as [|x l IH]; simpl; intros acc H; [assumption|].
  apply IH. now apply set_add_NoDup.
Qed.

Lemma fold_set_add_In (l acc : list Z) (y : Z) :
  In y (fold_left Js.set_add l acc) <-> In y acc \/ In y l.
Proof.
  revert acc. induction l as [|x l IH]; simpl; intros acc; [tauto|].
  rewrite IH, set_add_spec. intuition.
Qed.

(** The header checkbox builds its result through a [Set]: that path never
    yields a duplicate, whatever the selection was. *)
Lemma array_from_set_NoDup (l : list Z) : NoDup (Js.array_from_set l).
Proof. apply fold_set_add_NoDup. constructor. Qed.

Lemma array_from_set_In (l : list Z) (y : Z) :
  In y (Js.array_from_set l) <-> In y l.
Proof. unfold Js.array_from_set. rewrite fold_set_add_In. simpl. tauto. Qed.

(* ===================================================================== *)
(** ** [handleSubmit] *)
(* ===================================================================== *)

Lemma len_map_id (l : list Artwork) : Js.len (map id l) = Js.len l.
Proof. unfold Js.len. now rewrite length_map. Qed.

Lemma handleSubmit_rejects (r : State) (w : World) :
  Js.parseInt (rowSelection r) = None \/
  (exists n, Js.parseInt (rowSelection r) = Some n /\ n < 0) ->
  handleSubmit r w = toast_show invalidInput w.
Proof.
  unfold handleSubmit. intros [-> | (n & -> & Hn)]; [reflexivity|].
  destruct (Z.ltb_spec n 0); [reflexivity | lia].
Qed.

Section Accepted.
Variables (r : State) (w : World) (n : Z).
Hypothesis Hparse : Js.parseInt (rowSelection r) = Some n.
Hypothesis Hn : 0 <= n.

Lemma handleSubmit_selected :
  selectedArtworkIds (st (handleSubmit r w)) = submitted_selection r n.
Proof.
  unfold handleSubmit. rewrite Hparse, (proj2 (Z.ltb_ge n 0) Hn).
  destruct (Js.len (map id (artworks r)) <? n); reflexivity.
Qed.

Lemma handleSubmit_pending :
  pendingSelection (st (handleSubmit r w)) =
  Z.max 0 (Js.sub n (Js.len (artworks r))).
Proof.
  unfold handleSubmit.
  rewrite Hparse, (proj2 (Z.ltb_ge n 0) Hn), <- len_map_id.
  destruct (Js.len (map id (artworks r)) <? n); reflexivity.
Qed.

Lemma handleSubmit_flags :
  lazyParams_set (changed (handleSubmit r w)) = lazyParams_set (changed w)
  /\ crashed (handleSubmit r w) = crashed w
  /\ storage (handleSubmit r w) = storage w
  /\ inflight (handleSubmit r w) = inflight w.
Proof.
  unfold handleSubmit. rewrite Hparse, (proj2 (Z.ltb_ge n 0) Hn).
  destruct (Js.len (map id (artworks r)) <? n); repeat split; reflexivity.
Qed.

Lemma handleSubmit_toasts :
  toasts (handleSubmit r w) =
  toasts w ++ (if Js.len (artworks r) <? n then [selectionPending n] else []).
Proof.
  unfold handleSubmit.
  rewrite Hparse, (proj2 (Z.ltb_ge n 0) Hn), <- len_map_id.
  destruct (Js.len (map id (artworks r)) <? n); simpl;
    [reflexivity | now rewrite app_nil_r].
Qed.
End Accepted.

Lemma step_Submit_st (w : World) (n : Z) :
  crashed w = false ->
  Js.parseInt (rowSelection (st w)) = Some n ->
  0 <= n ->
  st (step Submit w) = st (handleSubmit (st w) (with_changed clean w)).
Proof.
  intros Hcr Hp Hn.
  destruct (handleSubmit_flags (st w) (with_changed clean w) n Hp Hn)
    as (Hlp & Hc & _).
  rewrite step_quiet; [apply quiet_effects_st | assumption | |].
  - simpl. rewrite Hc. exact Hcr.
  - simpl. rewrite Hlp. reflexivity.
Qed.

Lemma filter_off_page_then_on_page (ids l : list Z) :
  filter (Js.includes ids)
         (filter (fun i => negb (Js.includes ids i)) l) = [].
Proof.
  induction l as [|x l IH]; simpl; [reflexivity|].
  destruct (Js.includes ids x) eqn:E; simpl; [assumption|].
  now rewrite E.
Qed.

Lemma In_firstn {A : Type} (k : nat) (l : list A) (x : A) :
  In x (firstn k l) -> In x l.
Proof.
  intros H. rewrite <- (firstn_skipn k l). apply in_or_app. now left.
Qed.

Lemma filter_includes_firstn (ids : list Z) (k : nat) :
  filter (Js.includes ids) (firstn k ids) = firstn k ids.
Proof.
  apply forallb_filter_id. apply forallb_forall. intros x Hx.
  apply includes_In. eapply In_firstn; eassumption.
Qed.

(** C3: for a submitted count [n] with [0 <= n <= ] the number of records
    on the current page, "select first N" leaves the pending count at 0 and
    selects exactly the first [n] identifiers of the page in the order the
    server returned them: the new selection is the former off-page
    identifiers followed by those [n], and the selected identifiers that
    belong to the page are exactly those [n]. *)
Theorem submit_within_page (w : World) (n : Z) :
  crashed w = false ->
  Js.parseInt (rowSelection (st w)) = Some n ->
  0 <= n <= Js.len (artworks (st w)) ->
  let ids := map id (artworks (st w)) in
  let w' := step Submit w in
  selectedArtworkIds (st w') =
    filter (fun i => negb (Js.includes ids i)) (selectedArtworkIds (st w))
      ++ firstn (Z.to_nat n) ids
  /\ filter (Js.includes ids) (selectedArtworkIds (st w'))
     = firstn (Z.to_nat n) ids
  /\ pendingSelection (st w') = 0.
Proof.
  intros Hcr Hp [H0 Hle] ids w'. subst w'.
  rewrite (step_Submit_st w n Hcr Hp H0).
  rewrite (handleSubmit_selected _ _ n Hp H0),
          (handleSubmit_pending _ _ n Hp H0).
  unfold submitted_selection. fold ids.
  assert (E : Js.slice0 (Z.min n (Js.len ids)) ids = firstn (Z.to_nat n) ids).
  { unfold ids at 1. rewrite len_map_id, Z.min_l by assumption.
    now apply slice0_firstn. }
  rewrite E. repeat split.
  - rewrite filter_app, filter_off_page_then_on_page, filter_includes_firstn.
    reflexivity.
  - pose proof (JsFacts.sub_nonpos n (Js.len (artworks (st w))) Hle). lia.
Qed.

Lemma submit_within_page_witness :
  let w := world_typed "5" in
  let ids := map id (artworks (st w)) in
  selectedArtworkIds (st (step Submit w)) =
    filter (fun i => negb (Js.includes ids i)) (selectedArtworkIds (st w))
      ++ firstn (Z.to_nat 5) ids
  /\ filter (Js.includes ids) (selectedArtworkIds (st (step Submit w)))
     = firstn (Z.to_nat 5) ids
  /\ pendingSelection (st (step Submit w)) = 0.
Proof.
  assert (H1 : crashed (world_typed "5") = false) by (vm_compute; reflexivity).
  assert (H2 : Js.parseInt (rowSelection (st (world_typed "5"))) = Some 5)
    by (vm_compute; reflexivity).
  assert (H3 : 0 <= 5 <= Js.len (artworks (st (world_typed "5"))))
    by (vm_compute; split; discriminate).
  exact (submit_within_page (world_typed "5") 5 H1 H2 H3).
Defined.

(** C9: "select first N" replaces the current page's part of the selection:
    for every prior selection and every accepted count [n >= 0] the new
    selection is the prior one without the current page's identifiers,
    followed by the first [min n (page length)] identifiers of the page.
    Hence a page identifier outside that prefix is no longer selected, an
    identifier that is not on the page stays selected, and [n = 0] is
    accepted without any message and deselects every record of the page. *)
Theorem submit_replaces_page (w : World) (n : Z) :
  crashed w = false ->
  Js.parseInt (rowSelection (st w)) = Some n ->
  0 <= n ->
  let ids := map id (artworks (st w)) in
  let kept := firstn (Z.to_nat (Z.min n (Js.len ids))) ids in
  let w' := step Submit w in
  selectedArtworkIds (st w') =
    filter (fun i => negb (Js.includes ids i)) (selectedArtworkIds (st w))
      ++ kept
  /\ (forall x, In x ids -> ~ In x kept -> ~ In x (selectedArtworkIds (st w')))
  /\ (forall x, In x (selectedArtworkIds (st w)) -> ~ In x ids ->
                In x (selectedArtworkIds (st w')))
  /\ (n = 0 -> toasts w' = toasts w
               /\ forall x, In x ids -> ~ In x (selectedArtworkIds (st w'))).
Proof.
  intros Hcr Hp H0 ids kept w'.
  assert (Hsel : selectedArtworkIds (st w') =
    filter (fun i => negb (Js.includes ids i)) (selectedArtworkIds (st w))
      ++ kept).
  { subst w'. rewrite (step_Submit_st w n Hcr Hp H0).
    rewrite (handleSubmit_selected _ _ n Hp H0).
    unfold submitted_selection. fold ids.
    rewrite slice0_firstn by (unfold Js.len; lia). reflexivity. }
  assert (Hoff : forall x, In x ids -> ~ In x kept ->
                           ~ In x (selectedArtworkIds (st w'))).
  { intros x Hx Hk. rewrite Hsel, in_app_iff, filter_In.
    intros [[_ Hf] | Hin]; [|contradiction].
    apply negb_true_iff, includes_not_In in Hf. contradiction. }
  repeat split.
  - exact Hsel.
  - exact Hoff.
  - intros x Hx Hn. rewrite Hsel, in_app_iff, filter_In. left. split; [assumption|].
    apply negb_true_iff, includes_not_In. assumption.
  - subst w' n. unfold step. rewrite Hcr.
    destruct (handleSubmit_flags (st w) (with_changed clean w) 0 Hp H0)
      as (Hlp & Hc & _).
    rewrite commit_quiet, quiet_effects_toasts;
      [| simpl; rewrite Hc; exact Hcr | simpl; rewrite Hlp; reflexivity].
    simpl handle. rewrite (handleSubmit_toasts _ _ 0 Hp H0).
    destruct (Z.ltb_spec (Js.len (artworks (st w))) 0) as [Hneg|_].
    + unfold Js.len in Hneg. lia.
    + simpl. now rewrite app_nil_r.
  - intros x Hx. apply Hoff; [assumption|].
    subst kept n. rewrite Z.min_l by (unfold Js.len; lia). simpl. tauto.
Qed.

Lemma submit_replaces_page_witness :
  let w := world_all_checked "0" in
  selectedArtworkIds (st (step Submit w)) =
    filter (fun i => negb (Js.includes (map id (artworks (st w))) i))
           (selectedArtworkIds (st w))
      ++ firstn (Z.to_nat (Z.min 0 (Js.len (map id (artworks (st w))))))
                (map id (artworks (st w))).
Proof.
  assert (H1 : crashed (world_all_checked "0") = false)
    by (vm_compute; reflexivity).
  assert (H2 : Js.parseInt (rowSelection (st (world_all_checked "0"))) = Some 0)
    by (vm_compute; reflexivity).
  exact (proj1 (submit_replaces_page (world_all_checked "0") 0 H1 H2
                  (Z.le_refl 0))).
Defined.

(* ===================================================================== *)
(** ** More on what the quiet effects leave behind *)
(* ===================================================================== *)

Lemma quiet_effects_storage b h :
  storage (quiet_effects b h) =
  if selectedArtworkIds_set (changed h)
  then Some (Json.stringify (selectedArtworkIds (st h)))
  else storage h.
Proof.
  unfold quiet_effects, effect_pendingSelection, effect_selectedArtworkIds,
    fetchNextPage.
  destruct (selectedArtworkIds_set (changed h)),
    (negb (pendingSelection b =? pendingSelection (st h))),
    (0 <? pendingSelection (st h)); reflexivity.
Qed.

Lemma quiet_effects_inflight b h :
  inflight (quiet_effects b h) =
  inflight h ++
  (if (negb (pendingSelection b =? pendingSelection (st h))
       || selectedArtworkIds_set (changed h))
      && (0 <? pendingSelection (st h))
   then [AwaitNextPage
           (artworksUrl (page (lazyParams (st h)) + 1) (lazyParams (st h)))
           (st h)]
   else []).
Proof.
  unfold quiet_effects, effect_pendingSelection, effect_selectedArtworkIds,
    fetchNextPage.
  destruct (selectedArtworkIds_set (changed h)),
    (negb (pendingSelection b =? pendingSelection (st h))),
    (0 <? pendingSelection (st h)); simpl; now rewrite ?app_nil_r.
Qed.

Lemma quiet_effects_rest b h :
  overlayVisible (quiet_effects b h) = overlayVisible h
  /\ console (quiet_effects b h) = console h
  /\ crashed (quiet_effects b h) = crashed h.
Proof.
  unfold quiet_effects, effect_pendingSelection, effect_selectedArtworkIds,
    fetchNextPage.
  destruct (selectedArtworkIds_set (changed h)),
    (negb (pendingSelection b =? pendingSelection (st h))),
    (0 <? pendingSelection (st h)); repeat split; reflexivity.
Qed.

(** When [parseInt] reads no integer at the start of the typed text ([NaN])
    or reads a negative integer, the submission shows the validation message
    and changes nothing else: the component state, the stored selection, the
    overlay, the requests in flight and the console are as before. *)
Lemma submit_invalid_rejected (w : World) :
  crashed w = false ->
  Js.parseInt (rowSelection (st w)) = None \/
  (exists n, Js.parseInt (rowSelection (st w)) = Some n /\ n < 0) ->
  toasts (step Submit w) = toasts w ++ [invalidInput]
  /\ st (step Submit w) = st w
  /\ storage (step Submit w) = storage w
  /\ overlayVisible (step Submit w) = overlayVisible w
  /\ inflight (step Submit w) = inflight w
  /\ console (step Submit w) = console w.
Proof.
  intros Hcr Hbad.
  assert (E : handle Submit (with_changed clean w)
              = toast_show invalidInput (with_changed clean w)).
  { simpl handle. now apply handleSubmit_rejects. }
  rewrite step_quiet; rewrite ?E; try assumption; try reflexivity.
  rewrite quiet_effects_toasts, quiet_effects_st, quiet_effects_storage,
    quiet_effects_inflight.
  destruct (quiet_effects_rest (st w) (toast_show invalidInput
                                         (with_changed clean w)))
    as (Ho & Hc & _).
  rewrite Ho, Hc. simpl. rewrite Z.eqb_refl. simpl.
  rewrite app_nil_r. repeat split; reflexivity.
Qed.

(** C4 does not hold of the code for "-0.5".  The text denotes a negative
    number, so the rule asks for the validation message and an unchanged
    selection.  [parseInt] reads it as (negative) zero, which the test
    [numRows < 0] lets through: with the twelve records of the page
    selected, the submission shows no message and deselects all twelve. *)
Theorem submit_negative_fraction_accepted :
  Wording.denotes_negative (rowSelection (st (world_all_checked "-0.5")))
  /\ Js.parseInt (rowSelection (st (world_all_checked "-0.5"))) = Some 0
  /\ selectedArtworkIds (st (world_all_checked "-0.5"))
     = [1; 2; 3; 4; 5; 6; 7; 8; 9; 10; 11; 12]
  /\ toasts (step Submit (world_all_checked "-0.5"))
     = toasts (world_all_checked "-0.5")
  /\ selectedArtworkIds (st (step Submit (world_all_checked "-0.5"))) = [].
Proof.
  split; [|split; [|split; [|split]]].
  - eexists. split; vm_compute; reflexivity.
  - vm_compute; reflexivity.
  - vm_compute; reflexivity.
  - vm_compute; reflexivity.
  - vm_compute; reflexivity.
Qed.

(* ===================================================================== *)
(** ** Deselecting on the current page *)
(* ===================================================================== *)

Lemma count_occ_filter_keep (f : Z -> bool) (l : list Z) (x : Z) :
  f x = true ->
  count_occ Z.eq_dec (filter f l) x = count_occ Z.eq_dec l x.
Proof.
  intros Hx. induction l as [|y l IH]; simpl; [reflexivity|].
  destruct (Z.eq_dec y x) as [->|Hne].
  - rewrite Hx. simpl. destruct (Z.eq_dec x x); congruence.
  - destruct (f y); simpl; [|assumption].
    destruct (Z.eq_dec y x); congruence.
Qed.

Lemma step_CheckRow_selected (w : World) (cell : State) (rowData : Artwork)
  (checked : bool) :
  crashed w = false ->
  selectedArtworkIds (st (step (CheckRow cell rowData checked) w)) =
  if checked then selectedArtworkIds cell ++ [id rowData]
  else filter (fun i => negb (i =? id rowData)) (selectedArtworkIds cell).
Proof.
  intros Hcr. rewrite step_quiet, quiet_effects_st; try assumption; reflexivity.
Qed.

Lemma step_CheckAll_selected (w : World) (checked : bool) :
  crashed w = false ->
  selectedArtworkIds (st (step (CheckAll checked) w)) =
  if checked
  then Js.array_from_set (selectedArtworkIds (st w) ++ map id (artworks (st w)))
  else filter (fun i => negb (Js.includes (map id (artworks (st w))) i))
              (selectedArtworkIds (st w)).
Proof.
  intros Hcr.
  destruct checked; rewrite step_quiet, quiet_effects_st;
    try assumption; reflexivity.
Qed.

(** C10 does not hold of the code.  A selection [4] is restored from
    storage and the first page is shown: the table builds the cell of
    record 4 with that selection, checked.  Then 13 records are requested
    and the walk selects record 13 from the second page, which is not
    displayed.  The cell of record 4 still shows the box checked; unchecking
    it stores the selection its render saw without 4, the empty one: record
    13 and the eleven other records are deselected with it.  The same
    happens when the other records were selected with the header box. *)
Theorem stale_row_uncheck_drops_others :
  checkboxTemplate_checked (st world_restored) (sample 4) = true
  /\ selectedArtworkIds (st world_restored_13)
     = [1; 2; 3; 4; 5; 6; 7; 8; 9; 10; 11; 12; 13]
  /\ Js.includes (map id (artworks (st world_restored_13))) 13 = false
  /\ selectedArtworkIds
       (st (step (CheckRow (st world_restored) (sample 4) false)
                 world_restored_13)) = []
  /\ selectedArtworkIds (st world_restored_all)
     = [4; 1; 2; 3; 5; 6; 7; 8; 9; 10; 11; 12]
  /\ selectedArtworkIds
       (st (step (CheckRow (st world_restored) (sample 4) false)
                 world_restored_all)) = [].
Proof.
  split; [|split; [|split; [|split; [|split]]]]; vm_compute; reflexivity.
Qed.

(* ===================================================================== *)
(** ** Failed fetches *)
(* ===================================================================== *)

(** C6: when the fetch of a next page fails (the request is rejected, the
    status is not ok, or the body is not JSON), the pending count becomes 0,
    the error toast is shown, and the selection is what it was; nothing is
    stored and no request is issued. *)
Theorem next_page_failure (w : World) (i : nat) (url : string)
  (closure : State) (why : FetchFailure) :
  crashed w = false ->
  nth_error (inflight w) i = Some (AwaitNextPage url closure) ->
  let w' := step (Settle i (Rejected why)) w in
  pendingSelection (st w') = 0
  /\ toasts w' = toasts w ++ [fetchNextPageFailed]
  /\ selectedArtworkIds (st w') = selectedArtworkIds (st w)
  /\ storage w' = storage w
  /\ inflight w' = remove_nth i (inflight w).
Proof.
  intros Hcr Hi w'. subst w'.
  assert (E : handle (Settle i (Rejected why)) (with_changed clean w) =
              fetchNextPage_resume closure (Rejected why)
                (with_inflight (remove_nth i (inflight w))
                   (with_changed clean w))).
  { simpl handle. rewrite Hi. reflexivity. }
  rewrite step_quiet; rewrite ?E; try assumption; try reflexivity.
  rewrite quiet_effects_toasts, quiet_effects_st, quiet_effects_storage,
    quiet_effects_inflight.
  simpl. rewrite andb_false_r, app_nil_r. repeat split; reflexivity.
Qed.

Lemma next_page_failure_witness :
  pendingSelection
    (st (step (Settle 0 (Rejected NetworkError))
              (step Submit (world_typed "15")))) = 0
  /\ selectedArtworkIds
       (st (step (Settle 0 (Rejected NetworkError))
                 (step Submit (world_typed "15"))))
     = selectedArtworkIds (st (step Submit (world_typed "15"))).
Proof.
  assert (H1 : crashed (step Submit (world_typed "15")) = false)
    by (vm_compute; reflexivity).
  assert (H2 : nth_error (inflight (step Submit (world_typed "15"))) 0
               = Some (AwaitNextPage
                         (artworksUrl 2 (lazyParams
                            (st (step Submit (world_typed "15")))))
                         (st (step Submit (world_typed "15")))))
    by (vm_compute; reflexivity).
  pose proof (next_page_failure _ 0 _ _ NetworkError H1 H2) as (Ha & _ & Hb & _).
  exact (conj Ha Hb).
Defined.

(** C7: when the fetch that loads a page fails, the error toast is shown,
    the displayed records and the total are what they were (the empty table
    if nothing had been loaded), the loading flag is cleared, and no request
    is issued in its place. *)
Theorem page_load_failure (w : World) (i : nat) (url : string)
  (closure : State) (why : FetchFailure) :
  crashed w = false ->
  nth_error (inflight w) i = Some (AwaitArtworks url closure) ->
  let w' := step (Settle i (Rejected why)) w in
  toasts w' = toasts w ++ [fetchArtworksFailed]
  /\ artworks (st w') = artworks (st w)
  /\ totalRecords (st w') = totalRecords (st w)
  /\ loading (st w') = false
  /\ inflight w' = remove_nth i (inflight w).
Proof.
  intros Hcr Hi w'. subst w'.
  assert (E : handle (Settle i (Rejected why)) (with_changed clean w) =
              fetchArtworks_resume closure (Rejected why)
                (with_inflight (remove_nth i (inflight w))
                   (with_changed clean w))).
  { simpl handle. rewrite Hi. reflexivity. }
  rewrite step_quiet; rewrite ?E; try assumption; try reflexivity.
  rewrite quiet_effects_toasts, quiet_effects_st, quiet_effects_inflight.
  simpl. rewrite Z.eqb_refl. simpl. rewrite app_nil_r.
  repeat split; reflexivity.
Qed.

Lemma page_load_failure_witness :
  artworks (st (step (Settle 0 (Rejected (NotOk 500))) (mount None))) = []
  /\ loading (st (step (Settle 0 (Rejected (NotOk 500))) (mount None))) = false
  /\ inflight (step (Settle 0 (Rejected (NotOk 500))) (mount None)) = [].
Proof.
  assert (H1 : crashed (mount None) = false) by (vm_compute; reflexivity).
  assert (H2 : nth_error (inflight (mount None)) 0
               = Some (AwaitArtworks (artworksUrl 1 (lazyParams initialState))
                                     initialState))
    by (vm_compute; reflexivity).
  pose proof (page_load_failure _ 0 _ _ (NotOk 500) H1 H2)
    as (_ & Ha & _ & Hb & Hc).
  exact (conj Ha (conj Hb Hc)).
Defined.

(* ===================================================================== *)
(** ** Persistence *)
(* ===================================================================== *)

(** No handler writes to local storage or raises; each either stores a new
    selection array or leaves the selection as it was. *)
Lemma handle_frame (e : Event) (w : World) :
  storage (handle e w) = storage w
  /\ crashed (handle e w) = crashed w
  /\ (selectedArtworkIds_set (changed (handle e w)) = true
      \/ selectedArtworkIds (st (handle e w)) = selectedArtworkIds (st w)).
Proof.
  destruct e as [cell rowData checked|checked|value| |f n p|f o| |i res]; simpl.
  - auto.
  - destruct checked; auto.
  - auto.
  - unfold handleSubmit.
    destruct (Js.parseInt (rowSelection (st w))) as [numRows|]; [|auto].
    destruct (numRows <? 0); [auto|].
    destruct (Js.len (map id (artworks (st w))) <? numRows); auto.
  - auto.
  - auto.
  - auto.
  - destruct (nth_error (inflight w) i) as [[url c|url c]|]; [| |auto].
    + destruct res; auto.
    + destruct res as [body|why]; simpl; [|auto].
      destruct ((Z.min (pendingSelection c) (Js.len (data body))
                   <? Js.len (data body))
                || (totalRecords c
                      <=? (page (lazyParams c) + 1) * rows (lazyParams c)));
        auto.
Qed.

(** After the effects have run, storage holds the selection in memory,
    provided the text found in storage was one this component wrote. *)
Lemma commit_persisted (b : State) (w : World) (l : list Z) :
  crashed w = false ->
  storage w = Some (Json.stringify l) ->
  selectedArtworkIds_set (changed w) = true \/ Persisted w ->
  Persisted (commit (Some b) w) /\ crashed (commit (Some b) w) = false.
Proof.
  intros Hcr Hst Hsel. unfold Persisted in *.
  destruct w as [s d sto t o c fl cr]. simpl in *. subst cr sto.
  destruct d as [lp sel]. simpl in *.
  unfold commit, render. simpl.
  destruct lp; simpl.
  - unfold effect_lazyParams. simpl.
    rewrite JsonFacts.parse_stringify. simpl.
    destruct sel; simpl;
      destruct (negb (pendingSelection b =? pendingSelection s)); simpl;
      unfold effect_pendingSelection; simpl;
      destruct (0 <? pendingSelection s); simpl;
      rewrite ?Z.eqb_refl; simpl;
      destruct (0 <? pendingSelection s); simpl; auto.
  - destruct sel; simpl.
    + unfold effect_pendingSelection. simpl.
      rewrite orb_true_r.
      destruct (0 <? pendingSelection s); simpl;
        rewrite ?Z.eqb_refl; simpl; auto.
    + destruct Hsel as [Hf|Hp]; [discriminate|].
      rewrite orb_false_r.
      destruct (negb (pendingSelection b =? pendingSelection s)); simpl;
        unfold effect_pendingSelection; simpl;
        destruct (0 <? pendingSelection s); simpl;
        rewrite ?Z.eqb_refl; simpl; auto.
Qed.

Lemma step_persisted (e : Event) (w : World) :
  Persisted w -> Persisted (step e w).
Proof.
  intros Hp. unfold step. destruct (crashed w) eqn:Hcr; [assumption|].
  destruct (handle_frame e (with_changed clean w)) as (Hs & Hc & Hsel).
  apply (commit_persisted _ _ (selectedArtworkIds (st w))).
  - rewrite Hc. exact Hcr.
  - rewrite Hs. exact Hp.
  - destruct Hsel as [Hsel|Hsel]; [now left|right].
    unfold Persisted. rewrite Hs, Hsel. exact Hp.
Qed.

Lemma mount_persisted (stored : option string) : Persisted (mount stored).
Proof.
  unfold Persisted, mount, commit, render. simpl.
  unfold effect_lazyParams. simpl.
  destruct stored as [s|]; simpl; [|reflexivity].
  destruct (String.eqb s ""); simpl; [reflexivity|].
  destruct (Json.parse s); simpl; reflexivity.
Qed.

Lemma mount_restores (l : list Z) :
  selectedArtworkIds (st (mount (Some (Json.stringify l)))) = l
  /\ crashed (mount (Some (Json.stringify l))) = false.
Proof.
  unfold mount, commit, render. simpl.
  unfold effect_lazyParams. simpl.
  rewrite JsonFacts.parse_stringify.
  split; reflexivity.
Qed.

Lemma step_not_crashed (e : Event) (w : World) :
  crashed w = false -> Persisted w -> crashed (step e w) = false.
Proof.
  intros Hcr Hp. unfold step. rewrite Hcr.
  destruct (handle_frame e (with_changed clean w)) as (Hs & Hc & Hsel).
  apply (commit_persisted _ _ (selectedArtworkIds (st w))).
  - rewrite Hc. exact Hcr.
  - rewrite Hs. exact Hp.
  - destruct Hsel as [Hsel|Hsel]; [now left|right].
    unfold Persisted. rewrite Hs, Hsel. exact Hp.
Qed.

Lemma run_persisted (es : list Event) (w : World) :
  crashed w = false -> Persisted w ->
  crashed (run es w) = false /\ Persisted (run es w).
Proof.
  revert w. induction es as [|e es IH]; intros w Hcr Hp; [now split|].
  simpl. apply IH; [now apply step_not_crashed | now apply step_persisted].
Qed.

Lemma mount_not_crashed (prior : option (list Z)) :
  crashed (mount (option_map Json.stringify prior)) = false.
Proof.
  destruct prior as [l|]; [apply mount_restores | reflexivity].
Qed.

(** C5: local storage mirrors the selection.  Let the component be mounted
    over an empty storage or over a selection it stored earlier.  After any
    sequence of events, hence after every mutation of the selection, the
    text in storage is the serialization of the selection in memory at that
    point, and mounting again with that text restores exactly that
    selection. *)
Theorem selection_persisted (prior : option (list Z)) (es : list Event) :
  storage (run es (mount (option_map Json.stringify prior)))
    = Some (Json.stringify
              (selectedArtworkIds
                 (st (run es (mount (option_map Json.stringify prior))))))
  /\ selectedArtworkIds
       (st (mount (storage
                     (run es (mount (option_map Json.stringify prior))))))
     = selectedArtworkIds
         (st (run es (mount (option_map Json.stringify prior))))
  /\ crashed (run es (mount (option_map Json.stringify prior))) = false.
Proof.
  destruct (run_persisted es _ (mount_not_crashed prior)
                          (mount_persisted _)) as (Hcr & Hp).
  unfold Persisted in Hp. split; [exact Hp|]. split; [|exact Hcr].
  rewrite Hp. apply mount_restores.
Qed.

(* ===================================================================== *)
(** ** The cross-page walk *)
(* ===================================================================== *)

(** What a submitted count beyond the page does at once: every identifier
    of the page is selected and the shortfall becomes the pending count. *)
Lemma submit_beyond_page (w : World) (n : Z) :
  crashed w = false ->
  Js.parseInt (rowSelection (st w)) = Some n ->
  Js.len (artworks (st w)) < n ->
  let ids := map id (artworks (st w)) in
  selectedArtworkIds (st (step Submit w)) =
    filter (fun i => negb (Js.includes ids i)) (selectedArtworkIds (st w))
      ++ ids
  /\ pendingSelection (st (step Submit w)) = Js.sub n (Js.len (artworks (st w)))
  /\ 0 < Js.sub n (Js.len (artworks (st w))).
Proof.
  intros Hcr Hp Hlt ids.
  assert (H0 : 0 <= n) by (unfold Js.len in Hlt; lia).
  rewrite (step_Submit_st w n Hcr Hp H0).
  rewrite (handleSubmit_selected _ _ n Hp H0),
          (handleSubmit_pending _ _ n Hp H0).
  pose proof (JsFacts.sub_pos n (Js.len (artworks (st w))) Hlt) as Hpos.
  unfold submitted_selection. fold ids. split; [|split].
  - rewrite slice0_all; [reflexivity|].
    unfold ids. rewrite len_map_id. lia.
  - lia.
  - exact Hpos.
Qed.

(** What the continuation of [fetchNextPage] stores when the page arrives:
    the first [min pending (page length)] identifiers of the page are
    appended in the order received, and the pending count drops by as many,
    or to 0 when the page had more records than needed or was the last. *)
Lemma fetchNextPage_resume_fulfilled (r : State) (body : ApiResponse)
  (w : World) :
  0 <= pendingSelection r ->
  let k := Z.min (pendingSelection r) (Js.len (data body)) in
  let last :=
    (k <? Js.len (data body))
    || (totalRecords r <=? (page (lazyParams r) + 1) * rows (lazyParams r)) in
  let w' := fetchNextPage_resume r (Fulfilled body) w in
  selectedArtworkIds (st w') =
    selectedArtworkIds (st w) ++ firstn (Z.to_nat k) (map id (data body))
  /\ pendingSelection (st w') =
     (if last then 0 else Js.sub (pendingSelection (st w)) k)
  /\ page (lazyParams (st w')) =
     (if last then page (lazyParams (st w)) else page (lazyParams r) + 1).
Proof.
  intros Hp k last w'. subst w'. unfold fetchNextPage_resume.
  fold k. fold last.
  assert (Hk : 0 <= k) by (unfold k, Js.len; lia).
  rewrite slice0_firstn by assumption.
  rewrite <- firstn_map.
  destruct last; repeat split; reflexivity.
Qed.

(** C1 fails on the code.  Record 13 is selected on page 2, in the cell
    built when that page arrived; back on page 1 the count 13 is submitted;
    the walk fetches page 2 and appends its first identifier, 13, a second
    time. *)
Theorem walk_appends_duplicate :
  ~ NoDup
      (selectedArtworkIds
         (st (run [CheckRow (st world_second_page) (sample 13) true;
                   PageChange 0 12 0; Settle 0 (sample_page 1 120);
                   TypeRowSelection "13"; Submit;
                   Settle 0 (sample_page 2 120)]
                  world_second_page))).
Proof.
  vm_compute. intros H.
  apply NoDup_cons_iff in H. destruct H as [H _]. apply H.
  simpl. repeat (try (left; reflexivity); right).
Qed.

(** C2 fails on the code.  On page 1 of 120 records, 24 is submitted: the
    twelve identifiers of the page are selected and 12 are pending.  When
    page 2 arrives its twelve identifiers are appended and the page number
    advances; the effect on [lazyParams] then reads the selection stored
    before this render and puts it back, so the step ends with the twelve
    identifiers of page 1 only and nothing pending. *)
Theorem walk_loses_fetched_page :
  selectedArtworkIds (st (step Submit (world_typed "24")))
    = [1; 2; 3; 4; 5; 6; 7; 8; 9; 10; 11; 12]
  /\ pendingSelection (st (step Submit (world_typed "24"))) = 12
  /\ selectedArtworkIds
       (st (handle (Settle 0 (sample_page 2 120))
                   (step Submit (world_typed "24"))))
     = [1; 2; 3; 4; 5; 6; 7; 8; 9; 10; 11; 12;
        13; 14; 15; 16; 17; 18; 19; 20; 21; 22; 23; 24]
  /\ selectedArtworkIds
       (st (step (Settle 0 (sample_page 2 120))
                 (step Submit (world_typed "24"))))
     = [1; 2; 3; 4; 5; 6; 7; 8; 9; 10; 11; 12]
  /\ pendingSelection
       (st (step (Settle 0 (sample_page 2 120))
                 (step Submit (world_typed "24")))) = 0
  /\ walk_over (step (Settle 0 (sample_page 2 120))
                     (step Submit (world_typed "24"))).
Proof. vm_compute. repeat split. Qed.

(** On page 1 of 120 records, 36 is submitted.  The fetch of page 2
    advances the page; the reload of the stored selection that follows
    makes the walk effect run twice, so page 3 is fetched twice.  The first
    copy brings the pending count to 0, the second subtracts again: once
    every request has settled the pending count is -12, and only the twelve
    identifiers of page 1 are selected. *)
Example walk_ends_below_zero :
  inflight (run [Submit;
                 Settle 0 (sample_page 2 120); Settle 0 (sample_page 2 120);
                 Settle 0 (sample_page 3 120); Settle 0 (sample_page 3 120);
                 Settle 0 (sample_page 3 120); Settle 0 (sample_page 3 120)]
                (world_typed "36")) = []
  /\ pendingSelection
       (st (run [Submit;
                 Settle 0 (sample_page 2 120); Settle 0 (sample_page 2 120);
                 Settle 0 (sample_page 3 120); Settle 0 (sample_page 3 120);
                 Settle 0 (sample_page 3 120); Settle 0 (sample_page 3 120)]
                (world_typed "36"))) = -12
  /\ selectedArtworkIds
       (st (run [Submit;
                 Settle 0 (sample_page 2 120); Settle 0 (sample_page 2 120);
                 Settle 0 (sample_page 3 120); Settle 0 (sample_page 3 120);
                 Settle 0 (sample_page 3 120); Settle 0 (sample_page 3 120)]
                (world_typed "36")))
     = [1; 2; 3; 4; 5; 6; 7; 8; 9; 10; 11; 12].
Proof. vm_compute. repeat split. Qed.

(* ===================================================================== *)
(** ** The walk stops *)
(* ===================================================================== *)

Lemma load_app (T : Z) (l1 l2 : list Request) :
  load T (l1 ++ l2) = load T l1 + load T l2.
Proof. induction l1 as [|r l1 IH]; simpl; [reflexivity | rewrite IH; lia]. Qed.

Lemma weight_pos (T : Z) (r : Request) : 1 <= weight T r.
Proof.
  destruct r as [u c|u c]; simpl; [lia|].
  assert (0 < 4 ^ Z.max 0 (T - page (lazyParams c)))
    by (apply Z.pow_pos_nonneg; lia).
  lia.
Qed.

Lemma load_remove_nth (T : Z) (l : list Request) (i : nat) (r : Request) :
  nth_error l i = Some r ->
  load T (remove_nth i l) = load T l - weight T r.
Proof.
  revert i. induction l as [|x l IH]; intros [|i] H; simpl in *;
    try discriminate.
  - injection H as ->. lia.
  - rewrite (IH i H). lia.
Qed.

Lemma Forall_remove_nth {A : Type} (P : A -> Prop) (l : list A) (i : nat) :
  Forall P l -> Forall P (remove_nth i l).
Proof.
  revert i. induction l as [|x l IH]; intros [|i] H; simpl; auto;
    inversion H; subst; auto.
Qed.

(** The requests a commit adds: without a change of [lazyParams], at most
    one next-page fetch, and only when the walk effect runs while a count is
    pending; with one, a page load and at most two next-page fetches.  All
    close over the page reached and the total known at that render. *)
Lemma commit_inflight (T : Z) (b : State) (h : World) :
  crashed h = false ->
  exists extra,
    inflight (commit (Some b) h) = inflight h ++ extra
    /\ Forall (fun r => lazyParams (closure_of r) = lazyParams (st h)
                        /\ totalRecords (closure_of r) = totalRecords (st h))
              extra
    /\ load T extra <=
       (if lazyParams_set (changed h)
        then 1 + 2 * 4 ^ Z.max 0 (T - page (lazyParams (st h)))
        else if (negb (pendingSelection b =? pendingSelection (st h))
                 || selectedArtworkIds_set (changed h))
                && (0 <? pendingSelection (st h))
             then 4 ^ Z.max 0 (T - page (lazyParams (st h)))
             else 0)
    /\ lazyParams (st (commit (Some b) h)) = lazyParams (st h)
    /\ totalRecords (st (commit (Some b) h)) = totalRecords (st h)
    /\ pendingSelection (st (commit (Some b) h)) = pendingSelection (st h)
    /\ (selectedArtworkIds_set (changed h) = true ->
        0 < pendingSelection (st h) ->
        existsb is_next_page extra = true).
Proof.
  intros Hcr.
  destruct h as [s d sto t o c fl cr]. simpl in Hcr. subst cr.
  destruct d as [lp sel].
  assert (HW : 0 < 4 ^ Z.max 0 (T - page (lazyParams s)))
    by (apply Z.pow_pos_nonneg; lia).
  cbn [st changed lazyParams_set selectedArtworkIds_set inflight].
  remember (4 ^ Z.max 0 (T - page (lazyParams s))) as W eqn:EW.
  remember (1 + 2 * W) as W2 eqn:EW2.
  unfold commit, render. simpl.
  destruct lp; simpl.
  - unfold effect_lazyParams. simpl.
    destruct sto as [text|]; simpl;
      [destruct (String.eqb text ""); simpl;
       [|destruct (Json.parse text); simpl]|];
      destruct sel; simpl;
      destruct (negb (pendingSelection b =? pendingSelection s)); simpl;
      unfold effect_pendingSelection; simpl;
      destruct (0 <? pendingSelection s) eqn:Hpos; simpl;
      rewrite ?Z.eqb_refl; simpl; rewrite ?Hpos; simpl;
      rewrite <- ?app_assoc; simpl;
      (eexists; split; [reflexivity|]);
      (split; [repeat constructor|]);
      (split; [cbn [load weight fold_right closure_of lazyParams page];
               rewrite <- ?EW; lia|]);
      (split; [reflexivity|]); (split; [reflexivity|]);
      (split; [reflexivity|]);
      intros Hsel Hgt;
      first [reflexivity | discriminate | apply Z.ltb_ge in Hpos; lia].
  - destruct sel; simpl;
      destruct (negb (pendingSelection b =? pendingSelection s)); simpl;
      unfold effect_pendingSelection; simpl;
      destruct (0 <? pendingSelection s) eqn:Hpos; simpl;
      rewrite ?Z.eqb_refl; simpl; rewrite ?Hpos; simpl;
      rewrite <- ?app_assoc; simpl;
      try (exists []; rewrite app_nil_r; split; [reflexivity|];
           split; [constructor|];
           split; [cbn [load fold_right]; lia|];
           (split; [reflexivity|]); (split; [reflexivity|]);
           (split; [reflexivity|]);
           intros Hsel Hgt;
           first [discriminate | apply Z.ltb_ge in Hpos; lia]);
      (eexists; split; [reflexivity|]);
      (split; [repeat constructor|]);
      (split; [cbn [load weight fold_right closure_of lazyParams page];
               rewrite <- ?EW; lia|]);
      (split; [reflexivity|]); (split; [reflexivity|]);
      (split; [reflexivity|]);
      intros Hsel Hgt;
      first [reflexivity | discriminate | apply Z.ltb_ge in Hpos; lia].
Qed.


(** What settling a request hands to the commit: either [lazyParams] keeps
    its identity and the walk effect will issue nothing, or a next-page
    fetch advanced the page, which it does only below the reported total. *)
Lemma handle_settle (T : Z) (w : World) (i : nat) (r : Request)
  (res : FetchResult) :
  nth_error (inflight w) i = Some r ->
  sane T (st w) ->
  sane T (closure_of r) ->
  reports_at_most T res ->
  let h := handle (Settle i res) (with_changed clean w) in
  crashed h = crashed w
  /\ inflight h = remove_nth i (inflight w)
  /\ sane T (st h)
  /\ ((lazyParams_set (changed h) = false
       /\ (negb (pendingSelection (st w) =? pendingSelection (st h))
           || selectedArtworkIds_set (changed h))
          && (0 <? pendingSelection (st h)) = false)
      \/ (lazyParams_set (changed h) = true
          /\ page (lazyParams (st h)) = page (lazyParams (closure_of r)) + 1
          /\ page (lazyParams (closure_of r)) + 1 < T
          /\ weight T r = 4 ^ Z.max 0 (T - page (lazyParams (closure_of r))))).
Proof.
  intros Hi (Hr & Hp & Ht) (Hcr & Hcp & Hct) Hres h. subst h.
  simpl handle. rewrite Hi.
  destruct r as [u c|u c]; simpl in Hcr, Hcp, Hct.
  - destruct res as [body|why]; simpl in Hres; simpl;
      (split; [reflexivity|]); (split; [reflexivity|]);
      (split; [unfold sane; simpl; auto|]);
      left; rewrite Z.eqb_refl; split; reflexivity.
  - destruct res as [body|why]; simpl in Hres.
    + unfold fetchNextPage_resume.
      destruct ((Z.min (pendingSelection c) (Js.len (data body))
                   <? Js.len (data body))
                || (totalRecords c
                      <=? (page (lazyParams c) + 1) * rows (lazyParams c)))
        eqn:Hlast; simpl;
        (split; [reflexivity|]); (split; [reflexivity|]).
      * split; [unfold sane; simpl; auto|].
        left. rewrite andb_false_r. split; reflexivity.
      * apply orb_false_iff in Hlast as [_ Hmore].
        apply Z.leb_gt in Hmore.
        split; [unfold sane; simpl; repeat split; try assumption; lia|].
        right. repeat split; try reflexivity. nia.
    + simpl. (split; [reflexivity|]); (split; [reflexivity|]).
      split; [unfold sane; simpl; auto|].
      left. rewrite andb_false_r. split; reflexivity.
Qed.

(** Settling any request in flight keeps the world sane and strictly lowers
    the bound on the fetches still to come. *)
Lemma settle_decreases (T : Z) (w : World) (i : nat) (res : FetchResult) :
  Sane T w ->
  (i < List.length (inflight w))%nat ->
  reports_at_most T res ->
  Sane T (step (Settle i res) w)
  /\ load T (inflight (step (Settle i res) w)) < load T (inflight w).
Proof.
  intros (Hcr & Hper & Hst & Hall) Hi Hres.
  destruct (nth_error (inflight w) i) as [r|] eqn:Hnth;
    [|apply nth_error_None in Hnth; lia].
  assert (Hr : sane T (closure_of r)).
  { rewrite Forall_forall in Hall. apply Hall.
    eapply nth_error_In; eassumption. }
  destruct (handle_settle T w i r res Hnth Hst Hr Hres)
    as (Hhc & Hhi & Hhs & Hcase).
  assert (Hstep : step (Settle i res) w
                  = commit (Some (st w))
                           (handle (Settle i res) (with_changed clean w))).
  { unfold step. now rewrite Hcr. }
  destruct (commit_inflight T (st w)
              (handle (Settle i res) (with_changed clean w)))
    as (extra & Hin & Hex & Hload & Hlp & Htot & _).
  { rewrite Hhc. exact Hcr. }
  rewrite <- Hstep in Hin, Hlp, Htot.
  assert (Hsane' : sane T (st (step (Settle i res) w))).
  { destruct Hhs as (H1 & H2 & H3). unfold sane. rewrite Hlp, Htot. auto. }
  split.
  - repeat split.
    + now apply step_not_crashed.
    + now apply step_persisted.
    + apply Hsane'.
    + apply Hsane'.
    + apply Hsane'.
    + rewrite Hin, Hhi. apply Forall_app. split.
      * now apply Forall_remove_nth.
      * eapply Forall_impl; [|exact Hex]. intros q [Hq1 Hq2].
        destruct Hhs as (H1 & H2 & H3).
        unfold sane. rewrite Hq1, Hq2. auto.
  - rewrite Hin, load_app, Hhi, (load_remove_nth T _ i r Hnth).
    pose proof (weight_pos T r) as Hw.
    destruct Hcase as [(Hq & Hnone) | (Hq & Hpage & Hbelow & Hwr)];
      rewrite Hq in Hload.
    + rewrite Hnone in Hload. lia.
    + rewrite Hpage in Hload. rewrite Hwr.
      set (p := page (lazyParams (closure_of r))) in *.
      replace (Z.max 0 (T - p)) with (Z.succ (T - (p + 1))) by lia.
      replace (Z.max 0 (T - (p + 1))) with (T - (p + 1)) in Hload by lia.
      rewrite Z.pow_succ_r by lia.
      assert (0 < 4 ^ (T - (p + 1))) by (apply Z.pow_pos_nonneg; lia).
      lia.
Qed.

Lemma load_nonneg (T : Z) (l : list Request) : 0 <= load T l.
Proof.
  induction l as [|r l IH]; simpl; [lia|].
  pose proof (weight_pos T r). lia.
Qed.

(** X14: every cross-page walk stops.  In a sane world (storage mirrors
    the selection, page sizes are positive, page numbers are not negative,
    the totals reported stay within [T]), however the requests in flight are
    answered and in whatever order, the number of answers is bounded by
    [load], and the world stays sane: no sequence of fetches goes on
    forever. *)
Lemma walk_stops (T : Z) (es : list (nat * FetchResult)) (w : World) :
  Sane T w ->
  answers T es w ->
  Z.of_nat (List.length es) <= load T (inflight w)
  /\ Sane T (settle_all es w).
Proof.
  revert w. induction es as [|[i res] es IH]; intros w Hs Ha.
  - split; [apply load_nonneg | exact Hs].
  - destruct Ha as (Hi & Hres & Ha).
    destruct (settle_decreases T w i res Hs Hi Hres) as (Hs' & Hlt).
    destruct (IH _ Hs' Ha) as (Hlen & Hfin).
    split; [|exact Hfin].
    simpl List.length. lia.
Qed.

Lemma existsb_remove_nth_other (l : list Request) (i : nat) (r : Request) :
  nth_error l i = Some r ->
  is_next_page r = false ->
  existsb is_next_page (remove_nth i l) = existsb is_next_page l.
Proof.
  revert i. induction l as [|x l IH]; intros [|i] H Hr; simpl in *;
    try discriminate.
  - injection H as ->. now rewrite Hr.
  - now rewrite (IH i H Hr).
Qed.

Lemma handle_settle_walk (w : World) (i : nat) (r : Request)
  (res : FetchResult) :
  nth_error (inflight w) i = Some r ->
  let h := handle (Settle i res) (with_changed clean w) in
  inflight h = remove_nth i (inflight w)
  /\ crashed h = crashed w
  /\ ((is_next_page r = false
       /\ pendingSelection (st h) = pendingSelection (st w))
      \/ pendingSelection (st h) = 0
      \/ selectedArtworkIds_set (changed h) = true).
Proof.
  intros Hi h. subst h. simpl handle. rewrite Hi.
  destruct r as [u c|u c].
  - destruct res; simpl; auto.
  - destruct res as [body|why]; [|simpl; auto].
    unfold fetchNextPage_resume.
    destruct ((Z.min (pendingSelection c) (Js.len (data body))
                 <? Js.len (data body))
              || (totalRecords c
                    <=? (page (lazyParams c) + 1) * rows (lazyParams c)));
      simpl; auto.
Qed.

Lemma settle_walking (w : World) (i : nat) (res : FetchResult) :
  crashed w = false ->
  Walking w ->
  (i < List.length (inflight w))%nat ->
  Walking (step (Settle i res) w).
Proof.
  intros Hcr Hw Hi.
  destruct (nth_error (inflight w) i) as [r|] eqn:Hnth;
    [|apply nth_error_None in Hnth; lia].
  destruct (handle_settle_walk w i r res Hnth) as (Hhi & Hhc & Hcase).
  unfold step. rewrite Hcr.
  destruct (commit_inflight 0 (st w)
              (handle (Settle i res) (with_changed clean w)))
    as (extra & Hin & _ & _ & _ & _ & Hpend & Hspawn).
  { rewrite Hhc. exact Hcr. }
  unfold Walking. rewrite Hpend, Hin, existsb_app, Hhi. intros Hpos.
  destruct Hcase as [(Hr & Hsame) | [Hzero | Hsel]].
  - rewrite (existsb_remove_nth_other _ i r Hnth Hr).
    rewrite Hsame in Hpos. now rewrite (Hw Hpos).
  - lia.
  - rewrite (Hspawn Hsel Hpos). apply orb_true_r.
Qed.

Lemma load_length (T : Z) (l : list Request) :
  Z.of_nat (List.length l) <= load T l.
Proof.
  induction l as [|r l IH]; simpl List.length; simpl load; [lia|].
  pose proof (weight_pos T r). lia.
Qed.

(** X15: a walk answered oldest first runs dry within [load] answers, and
    it ends with no count pending: no request is then in flight and the
    pending count is zero or below. *)
Lemma drain_ends (T : Z) (server : string -> FetchResult) (n : nat)
  (w : World) :
  Sane T w ->
  Walking w ->
  (forall u, reports_at_most T (server u)) ->
  load T (inflight w) <= Z.of_nat n ->
  inflight (drain server n w) = []
  /\ pendingSelection (st (drain server n w)) <= 0.
Proof.
  revert w. induction n as [|n IH]; intros w Hs Hw Hsrv Hload.
  - pose proof (load_length T (inflight w)) as Hlen.
    simpl drain.
    destruct (inflight w) as [|r l] eqn:E; [|simpl List.length in Hlen; lia].
    split; [reflexivity|].
    destruct (Z.ltb_spec 0 (pendingSelection (st w))) as [Hpos|]; [|lia].
    specialize (Hw Hpos). rewrite E in Hw. discriminate.
  - simpl drain. destruct (inflight w) as [|r l] eqn:E.
    + split; [exact E|].
      destruct (Z.ltb_spec 0 (pendingSelection (st w))) as [Hpos|]; [|lia].
      specialize (Hw Hpos). rewrite E in Hw. discriminate.
    + assert (Hi : (0 < List.length (inflight w))%nat)
        by (rewrite E; simpl; lia).
      destruct (settle_decreases T w 0 (server (url_of r)) Hs Hi (Hsrv _))
        as (Hs' & Hlt).
      apply IH; try assumption.
      * apply settle_walking; try assumption. apply Hs.
      * rewrite E in Hlt. lia.
Qed.


(** Seven answers from the sample server end that walk, below zero. *)
Example drain_sample_36 :
  inflight (drain sample_server 7 (step Submit (world_typed "36"))) = []
  /\ pendingSelection
       (st (drain sample_server 7 (step Submit (world_typed "36")))) = -12
  /\ List.length
       (selectedArtworkIds
          (st (drain sample_server 7 (step Submit (world_typed "36")))))
     = 12%nat.
Proof. vm_compute. repeat split. Qed.

(* ===================================================================== *)
(** ** The walk reaches the pending count 0 *)
(* ===================================================================== *)

Lemma In_remove_nth_other {A : Type} (l : list A) (i : nat) (r r0 : A) :
  nth_error l i = Some r0 -> In r l -> r <> r0 -> In r (remove_nth i l).
Proof.
  revert i. induction l as [|x l IH]; intros [|i] H Hin Hne; simpl in *;
    try discriminate.
  - injection H as ->. destruct Hin as [->|Hin]; [congruence | assumption].
  - destruct Hin as [->|Hin]; [now left | right; now apply (IH i)].
Qed.

(** The walk effect of the render that follows a new selection array issues
    a fetch for the count pending in that render. *)
Lemma commit_spawns (b : State) (h : World) :
  crashed h = false ->
  selectedArtworkIds_set (changed h) = true ->
  0 < pendingSelection (st h) ->
  In (next_page_request (st h)) (inflight (commit (Some b) h)).
Proof.
  intros Hcr Hsel Hpos.
  destruct h as [s d sto t o c fl cr]. simpl in Hcr, Hsel, Hpos. subst cr.
  destruct d as [lp sel]. simpl in Hsel. subst sel.
  apply Z.ltb_lt in Hpos.
  unfold commit, render, next_page_request. simpl.
  destruct lp; simpl.
  - unfold effect_lazyParams. simpl.
    destruct sto as [text|]; simpl;
      [destruct (String.eqb text ""); simpl;
       [|destruct (Json.parse text); simpl]|];
      rewrite ?orb_true_r; simpl;
      unfold effect_pendingSelection; simpl; rewrite ?Hpos; simpl;
      rewrite ?Z.eqb_refl; simpl; rewrite ?Hpos; simpl;
      rewrite ?in_app_iff; simpl; tauto.
  - rewrite ?orb_true_r; simpl.
    unfold effect_pendingSelection; simpl; rewrite ?Hpos; simpl;
      rewrite ?Z.eqb_refl; simpl; rewrite ?Hpos; simpl;
      rewrite ?in_app_iff; simpl; tauto.
Qed.

(** What the continuation of a fetch leaves as pending count. *)
Lemma handle_settle_pending (w : World) (i : nat) (r : Request)
  (res : FetchResult) :
  nth_error (inflight w) i = Some r ->
  let h := handle (Settle i res) (with_changed clean w) in
  rows (lazyParams (st h)) = rows (lazyParams (st w))
  /\ match r, res with
     | AwaitArtworks _ _, _ =>
         pendingSelection (st h) = pendingSelection (st w)
     | AwaitNextPage _ c, Rejected _ => pendingSelection (st h) = 0
     | AwaitNextPage _ c, Fulfilled body =>
         if forced c body then pendingSelection (st h) = 0
         else pendingSelection (st h)
              = Js.sub (pendingSelection (st w))
                       (Z.min (pendingSelection c) (Js.len (data body)))
              /\ selectedArtworkIds_set (changed h) = true
     end.
Proof.
  intros Hi h. subst h. simpl handle. rewrite Hi.
  destruct r as [u c|u c].
  - destruct res; simpl; auto.
  - destruct res as [body|why]; [|simpl; auto].
    unfold fetchNextPage_resume, forced, exhausted.
    destruct ((Z.min (pendingSelection c) (Js.len (data body))
                 <? Js.len (data body))
              || (totalRecords c
                    <=? (page (lazyParams c) + 1) * rows (lazyParams c)));
      simpl; auto.
Qed.





(** Every handler that leaves a count pending either stores a new selection
    array, which makes the walk effect run, or leaves in flight a fetch
    issued for that count. *)
Lemma handle_keeps_tracking (e : Event) (w : World) :
  Tracking w ->
  0 < pendingSelection (st (handle e (with_changed clean w))) ->
  selectedArtworkIds_set (changed (handle e (with_changed clean w))) = true
  \/ exists u c,
       In (AwaitNextPage u c) (inflight (handle e (with_changed clean w)))
       /\ pendingSelection c
          = pendingSelection (st (handle e (with_changed clean w))).
Proof.
  intros Hw.
  destruct e as [cell rowData checked|checked|value| |f n p|f o| |i res];
    simpl handle.
  - intros _. now left.
  - intros _. destruct checked; now left.
  - intros Hpos. right. exact (Hw Hpos).
  - unfold handleSubmit. simpl st.
    destruct (Js.parseInt (rowSelection (st w))) as [numRows|];
      [|intros Hpos; right; exact (Hw Hpos)].
    destruct (numRows <? 0); [intros Hpos; right; exact (Hw Hpos)|].
    intros _. left.
    destruct (Js.len (map id (artworks (st w))) <? numRows); reflexivity.
  - intros Hpos. right. exact (Hw Hpos).
  - intros Hpos. right. exact (Hw Hpos).
  - intros Hpos. right. exact (Hw Hpos).
  - simpl inflight.
    destruct (nth_error (inflight w) i) as [r|] eqn:Hnth;
      [|intros Hpos; right; exact (Hw Hpos)].
    destruct (handle_settle_walk w i r res Hnth) as (Hhi & _).
    destruct (handle_settle_pending w i r res Hnth) as (_ & Hcase).
    simpl handle in Hhi, Hcase. simpl inflight in Hhi, Hcase.
    rewrite Hnth in Hhi, Hcase.
    destruct r as [u0 c0|u0 c0]; intros Hpos.
    + right. rewrite Hcase in Hpos. destruct (Hw Hpos) as (u & c & Hc & Hcp).
      exists u, c. split; [|now rewrite Hcase].
      rewrite Hhi. apply (In_remove_nth_other _ i _ _ Hnth Hc). discriminate.
    + destruct res as [body|why]; [|lia].
      destruct (forced c0 body); [lia|]. left. apply Hcase.
Qed.

Lemma step_tracking (e : Event) (w : World) :
  crashed w = false -> Tracking w -> Tracking (step e w).
Proof.
  intros Hcr Hw. unfold step. rewrite Hcr.
  destruct (handle_frame e (with_changed clean w)) as (_ & Hc & _).
  assert (Hch : crashed (handle e (with_changed clean w)) = false)
    by (rewrite Hc; exact Hcr).
  destruct (commit_inflight 0 (st w) (handle e (with_changed clean w)) Hch)
    as (extra & Hin & _ & _ & _ & _ & Hpend & _).
  unfold Tracking. rewrite Hpend. intros Hpos.
  destruct (handle_keeps_tracking e w Hw Hpos) as [Hsel|(u & c & Hc' & Hcp)].
  - exists (artworksUrl
              (page (lazyParams (st (handle e (with_changed clean w)))) + 1)
              (lazyParams (st (handle e (with_changed clean w))))),
           (st (handle e (with_changed clean w))).
    split; [|reflexivity].
    exact (commit_spawns (st w) _ Hch Hsel Hpos).
  - exists u, c. split; [|exact Hcp].
    rewrite Hin. apply in_or_app. now left.
Qed.

(** From the moment the component is mounted, and after any sequence of
    events, a pending count comes with a fetch issued for that very count. *)
Lemma tracking_reachable (prior : option (list Z)) (es : list Event) :
  Tracking (run es (mount (option_map Json.stringify prior))).
Proof.
  assert (H : forall w, crashed w = false -> Persisted w -> Tracking w ->
                        Tracking (run es w)).
  { induction es as [|e es IH]; intros w Hcr Hp Hw; [exact Hw|].
    simpl. apply IH.
    - now apply step_not_crashed.
    - now apply step_persisted.
    - now apply step_tracking. }
  apply H; [apply mount_not_crashed | apply mount_persisted |].
  intros Hpos. exfalso.
  assert (E : pendingSelection (st (mount (option_map Json.stringify prior)))
              = 0).
  { destruct prior as [l|]; [|reflexivity].
    unfold mount, commit, render. simpl. unfold effect_lazyParams. simpl.
    rewrite JsonFacts.parse_stringify. reflexivity. }
  lia.
Qed.









(* ===================================================================== *)
(** ** Operations on the displayed page keep the selection duplicate-free *)
(* ===================================================================== *)

Lemma NoDup_firstn {A : Type} (k : nat) (l : list A) :
  NoDup l -> NoDup (firstn k l).
Proof.
  intros H. rewrite <- (firstn_skipn k l) in H.
  exact (NoDup_app_remove_r _ _ H).
Qed.

Lemma submitted_selection_NoDup (r : State) (n : Z) :
  0 <= n ->
  NoDup (selectedArtworkIds r) ->
  NoDup (map id (artworks r)) ->
  NoDup (submitted_selection r n).
Proof.
  intros Hn Hs Hp. unfold submitted_selection.
  rewrite slice0_firstn by (unfold Js.len; lia).
  apply NoDup_app.
  - now apply NoDup_filter.
  - now apply NoDup_firstn.
  - intros x Hx Hy. apply filter_In in Hx as [_ Hx].
    apply negb_true_iff, includes_not_In in Hx.
    apply Hx. eapply In_firstn; eassumption.
Qed.

(** X16: the operations on the displayed page keep the selection free of
    duplicates.  Let the selection be duplicate-free, and let it have been so
    in the render in which a row's cell was built.  Checking that row when
    its box shows unchecked, unchecking it, either use of the header
    checkbox, and "select first N" on a page whose identifiers are distinct
    all leave a duplicate-free selection; only the identifiers appended by
    the walk are not checked against it. *)
Lemma page_operations_keep_NoDup (w : World) (cell : State) :
  crashed w = false ->
  NoDup (selectedArtworkIds (st w)) ->
  NoDup (selectedArtworkIds cell) ->
  (forall rowData,
      checkboxTemplate_checked cell rowData = false ->
      NoDup (selectedArtworkIds (st (step (CheckRow cell rowData true) w))))
  /\ (forall rowData,
      NoDup (selectedArtworkIds (st (step (CheckRow cell rowData false) w))))
  /\ (forall checked,
      NoDup (selectedArtworkIds (st (step (CheckAll checked) w))))
  /\ (forall n,
      Js.parseInt (rowSelection (st w)) = Some n -> 0 <= n ->
      NoDup (map id (artworks (st w))) ->
      NoDup (selectedArtworkIds (st (step Submit w)))).
Proof.
  intros Hcr Hnd Hcell. repeat split.
  - intros rowData Hnew. rewrite step_CheckRow_selected by assumption.
    apply includes_not_In in Hnew.
    apply NoDup_app; [assumption | repeat constructor; simpl; tauto |].
    intros x Hx [<-|[]]. contradiction.
  - intros rowData. rewrite step_CheckRow_selected by assumption.
    now apply NoDup_filter.
  - intros checked. rewrite step_CheckAll_selected by assumption.
    destruct checked; [apply array_from_set_NoDup | now apply NoDup_filter].
  - intros n Hp Hn Hpage.
    rewrite (step_Submit_st w n Hcr Hp Hn),
            (handleSubmit_selected _ _ n Hp Hn).
    now apply submitted_selection_NoDup.
Qed.

(* ===================================================================== *)
(** ** Loading a page *)
(* ===================================================================== *)

(** X1: when a page load succeeds, the records and the total of the answer
    replace those displayed and the loading flag is cleared, whichever page
    the request was made for and whichever page is current by then; the
    selection, the pending count, the paging parameters, storage and the
    toasts are untouched, and no request is issued. *)
Theorem page_load_success (w : World) (i : nat) (url : string)
  (closure : State) (body : ApiResponse) :
  crashed w = false ->
  nth_error (inflight w) i = Some (AwaitArtworks url closure) ->
  let w' := step (Settle i (Fulfilled body)) w in
  artworks (st w') = data body
  /\ totalRecords (st w') = total (pagination body)
  /\ loading (st w') = false
  /\ selectedArtworkIds (st w') = selectedArtworkIds (st w)
  /\ pendingSelection (st w') = pendingSelection (st w)
  /\ lazyParams (st w') = lazyParams (st w)
  /\ storage w' = storage w
  /\ toasts w' = toasts w
  /\ inflight w' = remove_nth i (inflight w).
Proof.
  intros Hcr Hi w'. subst w'.
  assert (E : handle (Settle i (Fulfilled body)) (with_changed clean w) =
              fetchArtworks_resume closure (Fulfilled body)
                (with_inflight (remove_nth i (inflight w))
                   (with_changed clean w))).
  { simpl handle. rewrite Hi. reflexivity. }
  rewrite step_quiet; rewrite ?E; try assumption; try reflexivity.
  rewrite quiet_effects_toasts, quiet_effects_st, quiet_effects_inflight,
    quiet_effects_storage.
  simpl. rewrite Z.eqb_refl. simpl. rewrite app_nil_r.
  repeat split; reflexivity.
Qed.

Lemma page_load_success_witness :
  artworks (st (step (Settle 0 (sample_page 1 120)) (mount None)))
    = map sample [1; 2; 3; 4; 5; 6; 7; 8; 9; 10; 11; 12]
  /\ totalRecords (st (step (Settle 0 (sample_page 1 120)) (mount None))) = 120
  /\ loading (st (step (Settle 0 (sample_page 1 120)) (mount None))) = false.
Proof.
  assert (H1 : crashed (mount None) = false) by (vm_compute; reflexivity).
  assert (H2 : nth_error (inflight (mount None)) 0
               = Some (AwaitArtworks (artworksUrl 1 (lazyParams initialState))
                                     initialState))
    by (vm_compute; reflexivity).
  pose proof (page_load_success (mount None) 0 _ _
                {| data := map sample [1; 2; 3; 4; 5; 6; 7; 8; 9; 10; 11; 12];
                   pagination := {| total := 120; limit := 12; offset := 0;
                                    total_pages := 10; current_page := 1 |} |}
                H1 H2) as (Ha & Hb & Hc & _).
  exact (conj Ha (conj Hb Hc)).
Defined.

(** The commit that follows a change of [lazyParams], over a storage that
    holds the selection [l]: a page load is issued, the stored selection is
    put back, and the walk effect runs for each of the two renders that saw
    a new selection array. *)
Lemma commit_reload (b : State) (h : World) (l : list Z) :
  crashed h = false ->
  lazyParams_set (changed h) = true ->
  storage h = Some (Json.stringify l) ->
  let r := st h in
  let w' := commit (Some b) h in
  st w' = reloaded l r
  /\ storage w' = Some (Json.stringify l)
  /\ toasts w' = toasts h
  /\ overlayVisible w' = overlayVisible h
  /\ crashed w' = false
  /\ inflight w' =
     inflight h ++ page_request r
       :: (if (negb (pendingSelection b =? pendingSelection r)
               || selectedArtworkIds_set (changed h))
              && (0 <? pendingSelection r)
           then [next_page_request r] else [])
       ++ (if 0 <? pendingSelection r
           then [next_page_request (reloaded l r)] else []).
Proof.
  intros Hcr Hlp Hsto r w'. subst r w'.
  destruct h as [s d sto t o c fl cr]. simpl in Hcr, Hsto. subst cr sto.
  destruct d as [lp sel]. simpl in Hlp. subst lp.
  unfold commit, render, reloaded, next_page_request, page_request. simpl.
  unfold effect_lazyParams. simpl.
  rewrite JsonFacts.parse_stringify. simpl.
  destruct sel; simpl;
    destruct (negb (pendingSelection b =? pendingSelection s)); simpl;
    unfold effect_pendingSelection; simpl;
    destruct (0 <? pendingSelection s) eqn:Hpos; simpl;
    rewrite ?Z.eqb_refl; simpl; rewrite ?Hpos; simpl;
    rewrite <- ?app_assoc; simpl;
    repeat split; reflexivity.
Qed.

(** X2: turning the page, in a world whose storage mirrors the selection.
    The paging parameters take the event's [first] and [rows] and its page
    number plus one, the sort being kept; one page load is issued for that
    page and the loading flag is set, while the records shown stay until the
    answer arrives.  The selection read back from storage is the selection
    there was, and storage is unchanged.  If a count is pending, the new
    selection array makes the walk effect issue one next-page fetch more. *)
Theorem page_change (w : World) (ev_first ev_rows ev_page : Z) :
  crashed w = false ->
  Persisted w ->
  let lp :=
    {| first := ev_first; rows := ev_rows; page := ev_page + 1;
       sortField := sortField (lazyParams (st w));
       sortOrder := sortOrder (lazyParams (st w)) |} in
  let r := st (onPage ev_first ev_rows ev_page w) in
  let w' := step (PageChange ev_first ev_rows ev_page) w in
  lazyParams (st w') = lp
  /\ selectedArtworkIds (st w') = selectedArtworkIds (st w)
  /\ storage w' = storage w
  /\ artworks (st w') = artworks (st w)
  /\ loading (st w') = true
  /\ pendingSelection (st w') = pendingSelection (st w)
  /\ inflight w' =
     inflight w ++ AwaitArtworks (artworksUrl (ev_page + 1) lp) r
       :: (if 0 <? pendingSelection (st w)
           then [next_page_request (reloaded (selectedArtworkIds (st w)) r)]
           else []).
Proof.
  intros Hcr Hp lp r w'. subst w'. unfold step. rewrite Hcr.
  destruct (commit_reload (st w)
              (handle (PageChange ev_first ev_rows ev_page)
                      (with_changed clean w))
              (selectedArtworkIds (st w)))
    as (Hst & Hsto & _ & _ & _ & Hin); try reflexivity; try assumption.
  rewrite Hst, Hsto, Hin. simpl. rewrite Z.eqb_refl. simpl.
  repeat split; try reflexivity. symmetry. exact Hp.
Qed.

Lemma page_change_witness :
  selectedArtworkIds (st (step (PageChange 12 12 1) (world_all_checked "")))
    = selectedArtworkIds (st (world_all_checked ""))
  /\ page (lazyParams (st (step (PageChange 12 12 1) (world_all_checked ""))))
     = 2
  /\ List.length (inflight (step (PageChange 12 12 1) (world_all_checked "")))
     = 1%nat.
Proof.
  assert (H1 : crashed (world_all_checked "") = false)
    by (vm_compute; reflexivity).
  assert (H2 : Persisted (world_all_checked "")) by (vm_compute; reflexivity).
  pose proof (page_change (world_all_checked "") 12 12 1 H1 H2)
    as (Ha & Hb & _ & _ & _ & _ & Hc).
  split; [exact Hb|]. split; [rewrite Ha; reflexivity|].
  rewrite Hc. vm_compute. reflexivity.
Defined.

(** X3: sorting, in a world whose storage mirrors the selection.  The sort
    field and order are stored and nothing else of the paging parameters
    changes: the table stays on the page it was on.  One page load is issued
    for that page under the new sort; the selection and storage are as
    before; a pending count makes the walk effect issue one next-page fetch
    more. *)
Theorem sort_change (w : World) (ev_field : string) (ev_order : SortOrder) :
  crashed w = false ->
  Persisted w ->
  let lp :=
    {| first := first (lazyParams (st w)); rows := rows (lazyParams (st w));
       page := page (lazyParams (st w));
       sortField := Some ev_field; sortOrder := Some ev_order |} in
  let r := st (onSort ev_field ev_order w) in
  let w' := step (SortChange ev_field ev_order) w in
  lazyParams (st w') = lp
  /\ selectedArtworkIds (st w') = selectedArtworkIds (st w)
  /\ storage w' = storage w
  /\ inflight w' =
     inflight w ++ AwaitArtworks (artworksUrl (page (lazyParams (st w))) lp) r
       :: (if 0 <? pendingSelection (st w)
           then [next_page_request (reloaded (selectedArtworkIds (st w)) r)]
           else []).
Proof.
  intros Hcr Hp lp r w'. subst w'. unfold step. rewrite Hcr.
  destruct (commit_reload (st w)
              (handle (SortChange ev_field ev_order) (with_changed clean w))
              (selectedArtworkIds (st w)))
    as (Hst & Hsto & _ & _ & _ & Hin); try reflexivity; try assumption.
  rewrite Hst, Hsto, Hin. simpl. rewrite Z.eqb_refl. simpl.
  repeat split; try reflexivity. symmetry. exact Hp.
Qed.

Lemma sort_change_witness :
  page (lazyParams
          (st (step (SortChange "title" Descending)
                    (step (PageChange 12 12 1) (world_all_checked ""))))) = 2
  /\ selectedArtworkIds
       (st (step (SortChange "title" Descending)
                 (step (PageChange 12 12 1) (world_all_checked ""))))
     = selectedArtworkIds
         (st (step (PageChange 12 12 1) (world_all_checked ""))).
Proof.
  assert (H1 : crashed (step (PageChange 12 12 1) (world_all_checked ""))
               = false) by (vm_compute; reflexivity).
  assert (H2 : Persisted (step (PageChange 12 12 1) (world_all_checked "")))
    by (vm_compute; reflexivity).
  pose proof (sort_change _ "title" Descending H1 H2) as (Ha & Hb & _).
  split; [rewrite Ha; vm_compute; reflexivity | exact Hb].
Defined.

(* ===================================================================== *)
(** ** The checkboxes *)
(* ===================================================================== *)

Lemma step_quiet_st (e : Event) (w : World) :
  crashed w = false ->
  crashed (handle e (with_changed clean w)) = false ->
  lazyParams_set (changed (handle e (with_changed clean w))) = false ->
  st (step e w) = st (handle e (with_changed clean w))
  /\ crashed (step e w) = false.
Proof.
  intros Hcr Hh Hlp. rewrite step_quiet by assumption.
  split; [apply quiet_effects_st|].
  destruct (quiet_effects_rest (st w) (handle e (with_changed clean w)))
    as (_ & _ & Hc).
  now rewrite Hc.
Qed.


Lemma step_CheckAll_st (w : World) (checked : bool) :
  crashed w = false ->
  st (step (CheckAll checked) w)
    = st (selectAllTemplate_onChange (st w) checked (with_changed clean w))
  /\ crashed (step (CheckAll checked) w) = false.
Proof.
  intros Hcr. destruct checked; apply step_quiet_st; try assumption;
    reflexivity.
Qed.

Lemma filter_ne_app_self (l : list Z) (x : Z) :
  ~ In x l -> filter (fun i => negb (i =? x)) (l ++ [x]) = l.
Proof.
  intros Hx. rewrite filter_app. simpl. rewrite Z.eqb_refl. simpl.
  rewrite app_nil_r. apply forallb_filter_id. apply forallb_forall.
  intros y Hy. apply negb_true_iff, Z.eqb_neq. intros ->. contradiction.
Qed.




Lemma fold_set_add_extends (l acc : list Z) :
  exists added,
    fold_left Js.set_add l acc = acc ++ added
    /\ forall x, In x added -> In x l.
Proof.
  revert acc. induction l as [|y l IH]; intros acc; simpl.
  - exists []. split; [now rewrite app_nil_r | tauto].
  - assert (Hy : Js.set_add acc y = acc \/ Js.set_add acc y = acc ++ [y])
      by (unfold Js.set_add; destruct (Js.includes acc y); auto).
    destruct (IH (Js.set_add acc y)) as (added & E & Hin).
    rewrite E. destruct Hy as [Hy|Hy]; rewrite Hy.
    + exists added. split; [reflexivity | auto].
    + exists (y :: added). split.
      * rewrite <- app_assoc. reflexivity.
      * intros x [<-|Hx]; auto.
Qed.

Lemma fold_set_add_NoDup_id (l acc : list Z) :
  NoDup (acc ++ l) -> fold_left Js.set_add l acc = acc ++ l.
Proof.
  revert acc. induction l as [|y l IH]; intros acc H; simpl.
  - now rewrite app_nil_r.
  - assert (Hy : ~ In y acc).
    { apply NoDup_remove_2 in H. intros Hin. apply H.
      apply in_or_app. now left. }
    assert (E : Js.set_add acc y = acc ++ [y])
      by (unfold Js.set_add; now rewrite (proj2 (includes_not_In acc y) Hy)).
    rewrite E, IH; rewrite <- app_assoc; [reflexivity | exact H].
Qed.

Lemma array_from_set_keeps_prefix (sel ids : list Z) :
  NoDup sel ->
  exists added,
    Js.array_from_set (sel ++ ids) = sel ++ added
    /\ forall x, In x added -> In x ids.
Proof.
  intros Hnd. unfold Js.array_from_set. rewrite fold_left_app.
  rewrite (fold_set_add_NoDup_id sel []) by exact Hnd.
  apply fold_set_add_extends.
Qed.

Lemma filter_off_page_added (ids added : list Z) :
  (forall x, In x added -> In x ids) ->
  filter (fun i => negb (Js.includes ids i)) added = [].
Proof.
  intros H. induction added as [|x l IH]; simpl; [reflexivity|].
  rewrite (proj2 (includes_In ids x) (H x (or_introl eq_refl))). simpl.
  apply IH. intros y Hy. apply H. now right.
Qed.

(** X5: the header checkbox.  Checking it leaves a selection without
    duplicates that holds exactly the identifiers selected before and those
    of the displayed records, and the box then shows checked; a selection
    that had no duplicates keeps its order, the new identifiers following
    it.  Unchecking it deselects every displayed record, so that the box
    shows checked afterwards only if the page is empty.  Checking and then
    unchecking it leaves a selection that had no duplicates with exactly
    its identifiers of other pages, in their order. *)
Theorem header_checkbox (w : World) :
  crashed w = false ->
  let sel := selectedArtworkIds (st w) in
  let ids := map id (artworks (st w)) in
  let on := step (CheckAll true) w in
  let off := step (CheckAll false) w in
  selectAllTemplate_checked (st on) = true
  /\ NoDup (selectedArtworkIds (st on))
  /\ (forall x, In x (selectedArtworkIds (st on)) <-> In x sel \/ In x ids)
  /\ (NoDup sel ->
      (exists added, selectedArtworkIds (st on) = sel ++ added)
      /\ selectedArtworkIds (st (step (CheckAll false) on))
         = filter (fun i => negb (Js.includes ids i)) sel)
  /\ (forall rowData, In rowData (artworks (st w)) ->
                      checkboxTemplate_checked (st off) rowData = false)
  /\ (selectAllTemplate_checked (st off) = true <-> artworks (st w) = []).
Proof.
  intros Hcr sel ids on off.
  destruct (step_CheckAll_st w true Hcr) as (Hon & Hcr').
  destruct (step_CheckAll_st w false Hcr) as (Hoff & _).
  fold on in Hon, Hcr'. fold off in Hoff.
  assert (Hsel : selectedArtworkIds (st on) = Js.array_from_set (sel ++ ids))
    by (rewrite Hon; reflexivity).
  assert (Hart : artworks (st on) = artworks (st w))
    by (rewrite Hon; reflexivity).
  assert (Hsoff : selectedArtworkIds (st off)
                  = filter (fun i => negb (Js.includes ids i)) sel)
    by (rewrite Hoff; reflexivity).
  assert (Haoff : artworks (st off) = artworks (st w))
    by (rewrite Hoff; reflexivity).
  assert (Hrow : forall rowData, In rowData (artworks (st w)) ->
                 checkboxTemplate_checked (st off) rowData = false).
  { intros a Ha. unfold checkboxTemplate_checked. apply includes_not_In.
    rewrite Hsoff, filter_In. intros [_ H].
    apply negb_true_iff, includes_not_In in H. apply H.
    unfold ids. now apply in_map. }
  split; [|split; [|split; [|split; [|split]]]].
  - unfold selectAllTemplate_checked. rewrite Hart. apply forallb_forall.
    intros a Ha. apply includes_In. rewrite Hsel, array_from_set_In.
    apply in_or_app. right. unfold ids. now apply in_map.
  - rewrite Hsel. apply array_from_set_NoDup.
  - intros x. rewrite Hsel, array_from_set_In, in_app_iff. tauto.
  - intros Hnd.
    destruct (array_from_set_keeps_prefix sel ids Hnd) as (added & E & Hin).
    split; [exists added; now rewrite Hsel|].
    rewrite (step_CheckAll_selected on false Hcr'), Hart, Hsel, E.
    fold ids. rewrite filter_app, (filter_off_page_added ids added Hin).
    apply app_nil_r.
  - exact Hrow.
  - unfold selectAllTemplate_checked. rewrite Haoff. split.
    + intros Hall. destruct (artworks (st w)) as [|a l] eqn:E; [reflexivity|].
      simpl in Hall. apply andb_prop in Hall as [Ha _].
      unfold checkboxTemplate_checked in Hrow.
      rewrite (Hrow a (or_introl eq_refl)) in Ha. discriminate.
    + intros ->. reflexivity.
Qed.

Lemma header_checkbox_witness :
  selectAllTemplate_checked (st (step (CheckAll true) (world_typed ""))) = true
  /\ NoDup (selectedArtworkIds (st (step (CheckAll true) (world_typed "")))).
Proof.
  assert (H1 : crashed (world_typed "") = false) by (vm_compute; reflexivity).
  pose proof (header_checkbox (world_typed "") H1) as (Ha & Hb & _).
  exact (conj Ha Hb).
Defined.

(* ===================================================================== *)
(** ** Numbers written and read *)
(* ===================================================================== *)

Lemma of_uint_acc_val (d : Decimal.uint) (acc : positive) :
  Z.pos (Pos.of_uint_acc d acc) = uint_val (Z.pos acc) d.
Proof.
  revert acc. induction d; intros acc; cbn [Pos.of_uint_acc uint_val];
    try reflexivity; rewrite IHd; f_equal; lia.
Qed.

Lemma of_uint_val (d : Decimal.uint) : Z.of_N (Pos.of_uint d) = uint_val 0 d.
Proof.
  induction d; cbn [Pos.of_uint uint_val Z.of_N];
    try reflexivity; try assumption; apply of_uint_acc_val.
Qed.

Lemma read_digits_uint (d : Decimal.uint) (acc : Z) (rest : string) :
  no_leading_digit rest ->
  Js.read_digits (Some acc) (NilEmpty.string_of_uint d ++ rest)%string
  = Some (uint_val acc d).
Proof.
  intros Hrest. revert acc. induction d; intros acc; simpl;
    try apply IHd.
  destruct rest as [|c rest]; simpl in *; [reflexivity|].
  now rewrite Hrest.
Qed.

Lemma parseInt_uint (d : Decimal.uint) (rest : string) :
  d <> Decimal.Nil ->
  no_leading_digit rest ->
  Js.parseInt (NilEmpty.string_of_uint d ++ rest)%string
  = Some (Js.double (uint_val 0 d))
  /\ Js.parseInt (String "-" (NilEmpty.string_of_uint d ++ rest))
     = Some (- Js.double (uint_val 0 d)).
Proof.
  intros Hd Hrest.
  assert (H : Js.read_digits None (NilEmpty.string_of_uint d ++ rest)%string
              = Some (uint_val 0 d)).
  { destruct d; try congruence; simpl;
      apply (read_digits_uint _ _ rest Hrest). }
  split.
  - assert (E : Js.parseInt (NilEmpty.string_of_uint d ++ rest)%string
                = option_map Js.double
                    (Js.read_digits None
                       (NilEmpty.string_of_uint d ++ rest)%string))
      by (destruct d; try congruence; reflexivity).
    now rewrite E, H.
  - change (Js.parseInt (String "-" (NilEmpty.string_of_uint d ++ rest)))
      with (option_map (fun m => - Js.double m)
              (Js.read_digits None
                 (NilEmpty.string_of_uint d ++ rest)%string)).
    now rewrite H.
Qed.

Lemma string_of_int_nonnil (d : Decimal.uint) :
  d <> Decimal.Nil ->
  NilZero.string_of_int (Decimal.Pos d) = NilEmpty.string_of_uint d
  /\ NilZero.string_of_int (Decimal.Neg d)
     = String "-" (NilEmpty.string_of_uint d).
Proof. intros Hd. destruct d; try congruence; split; reflexivity. Qed.

(** [parseInt] reads an integer written in decimal, whatever follows its
    digits, as the double nearest to it. *)
Lemma parseInt_string_of_Z (z : Z) (rest : string) :
  no_leading_digit rest ->
  Js.parseInt (Json.string_of_Z z ++ rest)%string = Some (Js.double z).
Proof.
  intros Hrest. unfold Json.string_of_Z.
  destruct z as [|p|p]; simpl Z.to_int.
  - exact (proj1 (parseInt_uint (Decimal.D0 Decimal.Nil) rest
                    ltac:(discriminate) Hrest)).
  - pose proof (DecimalPos.Unsigned.to_uint_nonnil p) as Hnn.
    pose proof (DecimalPos.Unsigned.of_to p) as Hof.
    apply (f_equal Z.of_N) in Hof. rewrite of_uint_val in Hof.
    simpl in Hof. rewrite <- Hof.
    rewrite (proj1 (string_of_int_nonnil _ Hnn)).
    exact (proj1 (parseInt_uint _ rest Hnn Hrest)).
  - pose proof (DecimalPos.Unsigned.to_uint_nonnil p) as Hnn.
    pose proof (DecimalPos.Unsigned.of_to p) as Hof.
    apply (f_equal Z.of_N) in Hof. rewrite of_uint_val in Hof.
    simpl in Hof.
    rewrite (proj2 (string_of_int_nonnil _ Hnn)).
    change (Z.neg p) with (- Z.pos p). rewrite JsFacts.double_opp, <- Hof.
    exact (proj2 (parseInt_uint _ rest Hnn Hrest)).
Qed.

Lemma step_TypeRowSelection_st (w : World) (value : string) :
  crashed w = false ->
  st (step (TypeRowSelection value) w)
    = st (setRowSelection value (with_changed clean w))
  /\ crashed (step (TypeRowSelection value) w) = false.
Proof.
  intros Hcr. apply step_quiet_st; try assumption; reflexivity.
Qed.

(** X7: the count submitted is the number typed, as a double.  Typing
    changes the count field and nothing else: the rest of the state,
    storage, the toasts, the overlay and the requests in flight are as
    before.  When the field holds the decimal numeral of an integer
    [n >= 0], followed or not by text that does not begin with a digit,
    the count that the submission uses is [d], the double nearest to [n]
    ([n] itself below 2^53): the first [min d (page length)] identifiers of
    the page are selected after the selections of other pages, and
    [d - page length], if positive, is left pending. *)
Theorem submit_typed_numeral (w : World) (n : Z) (rest : string) :
  crashed w = false ->
  0 <= n ->
  no_leading_digit rest ->
  let text := (Json.string_of_Z n ++ rest)%string in
  let typed := step (TypeRowSelection text) w in
  let w' := step Submit typed in
  let ids := map id (artworks (st w)) in
  let d := Js.double n in
  st typed =
    {| artworks := artworks (st w); loading := loading (st w);
       totalRecords := totalRecords (st w); lazyParams := lazyParams (st w);
       selectedArtworkIds := selectedArtworkIds (st w);
       selectAll := selectAll (st w);
       rowSelection := text;
       pendingSelection := pendingSelection (st w) |}
  /\ storage typed = storage w
  /\ toasts typed = toasts w
  /\ overlayVisible typed = overlayVisible w
  /\ inflight typed = inflight w
  /\ selectedArtworkIds (st w') =
       filter (fun i => negb (Js.includes ids i)) (selectedArtworkIds (st w))
         ++ firstn (Z.to_nat (Z.min d (Js.len ids))) ids
  /\ pendingSelection (st w') = Z.max 0 (Js.sub d (Js.len ids))
  /\ (n < 2 ^ 53 -> d = n).
Proof.
  intros Hcr Hn Hrest text typed w' ids d.
  destruct (step_TypeRowSelection_st w text Hcr) as (Hst & Hcr').
  fold typed in Hst, Hcr'.
  assert (Hd : 0 <= d) by now apply JsFacts.double_nonneg.
  assert (Hp : Js.parseInt (rowSelection (st typed)) = Some d).
  { rewrite Hst. simpl. now apply parseInt_string_of_Z. }
  assert (Hstep : typed = quiet_effects (st w)
                            (setRowSelection text (with_changed clean w)))
    by (unfold typed; apply step_quiet; try assumption; reflexivity).
  split; [rewrite Hst; reflexivity|].
  split; [rewrite Hstep, quiet_effects_storage; reflexivity|].
  split; [rewrite Hstep, quiet_effects_toasts; reflexivity|].
  split.
  { rewrite Hstep.
    destruct (quiet_effects_rest (st w)
                (setRowSelection text (with_changed clean w))) as (Ho & _).
    rewrite Ho. reflexivity. }
  split.
  { rewrite Hstep, quiet_effects_inflight. simpl.
    rewrite Z.eqb_refl. simpl. apply app_nil_r. }
  split; [|split].
  - unfold w'. rewrite (step_Submit_st typed d Hcr' Hp Hd).
    rewrite (handleSubmit_selected _ _ d Hp Hd).
    unfold submitted_selection. rewrite Hst. simpl. fold ids.
    rewrite slice0_firstn by (unfold Js.len; lia). reflexivity.
  - unfold w'. rewrite (step_Submit_st typed d Hcr' Hp Hd).
    rewrite (handleSubmit_pending _ _ d Hp Hd).
    rewrite Hst. simpl. unfold ids. now rewrite len_map_id.
  - intros Hsmall. apply JsFacts.double_small. lia.
Qed.

Lemma submit_typed_numeral_witness :
  pendingSelection
    (st (step Submit
           (step (TypeRowSelection
                    (Json.string_of_Z 9007199254740993 ++ " rows")%string)
                 (world_all_checked ""))))
  = Z.max 0 (Js.sub (Js.double 9007199254740993)
                    (Js.len (map id (artworks (st (world_all_checked ""))))))
  /\ Z.max 0 (Js.sub (Js.double 9007199254740993)
                     (Js.len (map id (artworks (st (world_all_checked ""))))))
     = 9007199254740980.
Proof.
  assert (H1 : crashed (world_all_checked "") = false)
    by (vm_compute; reflexivity).
  assert (H2 : 0 <= 9007199254740993) by lia.
  assert (H3 : no_leading_digit " rows") by reflexivity.
  pose proof (submit_typed_numeral (world_all_checked "") 9007199254740993
                " rows" H1 H2 H3) as (_ & _ & _ & _ & _ & _ & H & _).
  split; [exact H | vm_compute; reflexivity].
Defined.

Lemma lacks_space_uint (d : Decimal.uint) :
  lacks " " (NilEmpty.string_of_uint d) = true.
Proof. induction d; simpl; auto. Qed.

Lemma lacks_space_string_of_Z (z : Z) : lacks " " (Json.string_of_Z z) = true.
Proof.
  unfold Json.string_of_Z.
  destruct z as [|p|p]; simpl; try reflexivity;
    destruct (Pos.to_uint p) eqn:E; simpl; auto using lacks_space_uint;
    exact (lacks_space_uint _).
Qed.

Lemma split_at_first (c : ascii) (u u' r r' : string) :
  lacks c u = true -> lacks c u' = true ->
  (u ++ String c r)%string = (u' ++ String c r')%string ->
  u = u' /\ r = r'.
Proof.
  revert u'. induction u as [|a u IH]; intros [|a' u'] Hu Hu' E;
    simpl in *.
  - injection E as ->. now split.
  - injection E as <- _. rewrite Ascii.eqb_refl in Hu'. discriminate.
  - injection E as -> _. rewrite Ascii.eqb_refl in Hu. discriminate.
  - injection E as -> E.
    apply andb_prop in Hu as [_ Hu]. apply andb_prop in Hu' as [_ Hu'].
    destruct (IH u' Hu Hu' E) as [-> ->]. now split.
Qed.

Lemma string_of_Z_inj (a b : Z) :
  Json.string_of_Z a = Json.string_of_Z b -> a = b.
Proof.
  intros E. pose proof (JsonFacts.Z_of_string_of_Z a) as Ha.
  rewrite E, JsonFacts.Z_of_string_of_Z in Ha. congruence.
Qed.

(** X8: the "Date Range" cell tells the two years apart: two rows show the
    same text only if they have the same start and the same end, negative
    years included. *)
Theorem dateRangeTemplate_injective (a b : Artwork) :
  dateRangeTemplate a = dateRangeTemplate b ->
  date_start a = date_start b /\ date_end a = date_end b.
Proof.
  unfold dateRangeTemplate. intros E.
  change (" - " ++ Json.string_of_Z (date_end a))%string
    with (String " " ("- " ++ Json.string_of_Z (date_end a))) in E.
  change (" - " ++ Json.string_of_Z (date_end b))%string
    with (String " " ("- " ++ Json.string_of_Z (date_end b))) in E.
  apply split_at_first in E as [Es Ee];
    try apply lacks_space_string_of_Z.
  injection Ee as Ee.
  split; now apply string_of_Z_inj.
Qed.

Lemma dateRangeTemplate_injective_witness :
  date_start (sample 1) = date_start (sample 2)
  /\ date_end (sample 1) = date_end (sample 2).
Proof.
  assert (H : dateRangeTemplate (sample 1) = dateRangeTemplate (sample 2))
    by reflexivity.
  exact (dateRangeTemplate_injective (sample 1) (sample 2) H).
Defined.

(* ===================================================================== *)
(** ** The walk, fetch by fetch *)
(* ===================================================================== *)

Lemma handleSubmit_accepted_flags (r : State) (w : World) (n : Z) :
  Js.parseInt (rowSelection r) = Some n ->
  0 <= n ->
  selectedArtworkIds_set (changed (handleSubmit r w)) = true
  /\ overlayVisible (handleSubmit r w) = false
  /\ lazyParams (st (handleSubmit r w)) = lazyParams (st w)
  /\ artworks (st (handleSubmit r w)) = artworks (st w).
Proof.
  intros Hp Hn. unfold handleSubmit. rewrite Hp, (proj2 (Z.ltb_ge n 0) Hn).
  destruct (Js.len (map id (artworks r)) <? n); repeat split; reflexivity.
Qed.

(** X9: a count beyond the page starts the walk.  Submitting a number [n]
    greater than the number of records shown selects the whole page after
    the selections of other pages, so that the header checkbox shows
    checked, leaves [n] minus the page length, rounded as JavaScript
    subtracts, pending, which is positive, stores the new selection, closes
    the overlay, announces the pending selection in a toast that prints
    [n] as JavaScript prints numbers, and issues exactly one fetch, for the
    page after the current one. *)
Theorem submit_starts_walk (w : World) (n : Z) :
  crashed w = false ->
  Js.parseInt (rowSelection (st w)) = Some n ->
  Js.len (artworks (st w)) < n ->
  let ids := map id (artworks (st w)) in
  let w' := step Submit w in
  selectedArtworkIds (st w') =
    filter (fun i => negb (Js.includes ids i)) (selectedArtworkIds (st w))
      ++ ids
  /\ pendingSelection (st w') = Js.sub n (Js.len (artworks (st w)))
  /\ 0 < pendingSelection (st w')
  /\ (n < 2 ^ 53 ->
      pendingSelection (st w') = n - Js.len (artworks (st w)))
  /\ selectAllTemplate_checked (st w') = true
  /\ storage w' = Some (Json.stringify (selectedArtworkIds (st w')))
  /\ overlayVisible w' = false
  /\ toasts w' = toasts w ++ [selectionPending n]
  /\ inflight w' = inflight w ++ [next_page_request (st w')]
  /\ lazyParams (st w') = lazyParams (st w).
Proof.
  intros Hcr Hp Hlt ids w'.
  assert (H0 : 0 <= n) by (unfold Js.len in Hlt; lia).
  destruct (handleSubmit_flags (st w) (with_changed clean w) n Hp H0)
    as (Hlp & Hc & Hsto & Hfl).
  destruct (handleSubmit_accepted_flags (st w) (with_changed clean w) n Hp H0)
    as (Hsel & Hov & Hlpar & Hart).
  pose proof (handleSubmit_selected (st w) (with_changed clean w) n Hp H0)
    as Hs.
  pose proof (handleSubmit_pending (st w) (with_changed clean w) n Hp H0)
    as Hpend.
  pose proof (handleSubmit_toasts (st w) (with_changed clean w) n Hp H0)
    as Hto.
  assert (Hstep : step Submit w
                  = quiet_effects (st w)
                      (handleSubmit (st w) (with_changed clean w))).
  { apply step_quiet; [assumption | |].
    - simpl. rewrite Hc. exact Hcr.
    - simpl. rewrite Hlp. reflexivity. }
  assert (Hst : st w' = st (handleSubmit (st w) (with_changed clean w))).
  { unfold w'. rewrite Hstep. apply quiet_effects_st. }
  pose proof (JsFacts.sub_pos n (Js.len (artworks (st w))) Hlt) as Hgt.
  assert (Hpos : pendingSelection (st w') = Js.sub n (Js.len (artworks (st w)))).
  { rewrite Hst, Hpend. lia. }
  assert (Hall : selectedArtworkIds (st w') =
                 filter (fun i => negb (Js.includes ids i))
                        (selectedArtworkIds (st w)) ++ ids).
  { rewrite Hst, Hs. unfold submitted_selection. fold ids.
    rewrite slice0_all; [reflexivity|].
    unfold ids. rewrite len_map_id. lia. }
  split; [exact Hall|]. split; [exact Hpos|].
  split; [rewrite Hpos; exact Hgt|].
  split.
  { intros Hsmall. rewrite Hpos. apply JsFacts.double_small.
    unfold Js.len in *. lia. }
  split; [|split; [|split; [|split; [|split]]]].
  - unfold selectAllTemplate_checked. rewrite Hall, Hst, Hart.
    apply forallb_forall. intros a Ha. apply includes_In.
    apply in_or_app. right. unfold ids. now apply in_map.
  - unfold w' at 1. rewrite Hstep, quiet_effects_storage, Hsel, <- Hst.
    reflexivity.
  - unfold w'. rewrite Hstep.
    destruct (quiet_effects_rest (st w)
                (handleSubmit (st w) (with_changed clean w))) as (Ho & _).
    now rewrite Ho.
  - unfold w'. rewrite Hstep, quiet_effects_toasts, Hto.
    simpl toasts. destruct (Z.ltb_spec (Js.len (artworks (st w))) n);
      [reflexivity | lia].
  - unfold w' at 1. rewrite Hstep, quiet_effects_inflight, Hsel, Hfl.
    rewrite orb_true_r, <- Hst, Hpos. simpl inflight.
    destruct (Z.ltb_spec 0 (Js.sub n (Js.len (artworks (st w))))); [|lia].
    reflexivity.
  - rewrite Hst. exact Hlpar.
Qed.

Lemma submit_starts_walk_witness :
  pendingSelection (st (step Submit (world_typed "15")))
    = Js.sub 15 (Js.len (artworks (st (world_typed "15"))))
  /\ inflight (step Submit (world_typed "15"))
     = inflight (world_typed "15")
         ++ [next_page_request (st (step Submit (world_typed "15")))].
Proof.
  assert (H1 : crashed (world_typed "15") = false)
    by (vm_compute; reflexivity).
  assert (H2 : Js.parseInt (rowSelection (st (world_typed "15"))) = Some 15)
    by (vm_compute; reflexivity).
  assert (H3 : Js.len (artworks (st (world_typed "15"))) < 15)
    by (vm_compute; reflexivity).
  pose proof (submit_starts_walk (world_typed "15") 15 H1 H2 H3)
    as (_ & Ha & _ & _ & _ & _ & _ & _ & Hb & _).
  exact (conj Ha Hb).
Defined.

(** X10: the fetch that ends the walk.  When a next-page fetch is answered
    with more records than its closure still needed, or with the last page,
    the first [min pending (page length)] identifiers of the answer are
    appended to the selection in the order received, the pending count
    becomes 0, the new selection is stored, and the page shown, the paging
    parameters and the toasts stay as they were; no request is issued. *)
Theorem walk_final_fetch (w : World) (i : nat) (url : string)
  (closure : State) (body : ApiResponse) :
  crashed w = false ->
  nth_error (inflight w) i = Some (AwaitNextPage url closure) ->
  0 <= pendingSelection closure ->
  let k := Z.min (pendingSelection closure) (Js.len (data body)) in
  k < Js.len (data body)
  \/ totalRecords closure
     <= (page (lazyParams closure) + 1) * rows (lazyParams closure) ->
  let w' := step (Settle i (Fulfilled body)) w in
  selectedArtworkIds (st w') =
    selectedArtworkIds (st w) ++ firstn (Z.to_nat k) (map id (data body))
  /\ pendingSelection (st w') = 0
  /\ lazyParams (st w') = lazyParams (st w)
  /\ artworks (st w') = artworks (st w)
  /\ storage w' = Some (Json.stringify (selectedArtworkIds (st w')))
  /\ toasts w' = toasts w
  /\ inflight w' = remove_nth i (inflight w).
Proof.
  intros Hcr Hi Hpend k Hlast w'. subst w'.
  assert (Hk : 0 <= k) by (unfold k, Js.len; lia).
  assert (Hb : (k <? Js.len (data body))
               || (totalRecords closure
                     <=? (page (lazyParams closure) + 1)
                         * rows (lazyParams closure)) = true).
  { apply orb_true_iff. destruct Hlast as [H|H];
      [left; now apply Z.ltb_lt | right; now apply Z.leb_le]. }
  assert (E : handle (Settle i (Fulfilled body)) (with_changed clean w) =
              setPendingSelection (fun _ => 0)
                (setPendingSelection (fun prev => Js.sub prev k)
                   (setSelectedArtworkIds
                      (fun prev => prev ++ firstn (Z.to_nat k)
                                             (map id (data body)))
                      (with_inflight (remove_nth i (inflight w))
                         (with_changed clean w))))).
  { simpl handle. rewrite Hi. unfold fetchNextPage_resume. fold k.
    rewrite Hb, slice0_firstn, <- firstn_map by assumption. reflexivity. }
  rewrite step_quiet; rewrite ?E; try assumption; try reflexivity.
  rewrite quiet_effects_toasts, quiet_effects_st, quiet_effects_inflight,
    quiet_effects_storage.
  simpl. rewrite andb_false_r, app_nil_r. repeat split; reflexivity.
Qed.

Lemma walk_final_fetch_witness :
  pendingSelection
    (st (step (Settle 0 (sample_page 2 120))
              (step Submit (world_typed "15")))) = 0
  /\ lazyParams
       (st (step (Settle 0 (sample_page 2 120))
                 (step Submit (world_typed "15"))))
     = lazyParams (st (step Submit (world_typed "15"))).
Proof.
  assert (H1 : crashed (step Submit (world_typed "15")) = false)
    by (vm_compute; reflexivity).
  assert (H2 : nth_error (inflight (step Submit (world_typed "15"))) 0
               = Some (next_page_request (st (step Submit (world_typed "15")))))
    by (vm_compute; reflexivity).
  assert (H3 : 0 <= pendingSelection (st (step Submit (world_typed "15"))))
    by (vm_compute; discriminate).
  pose proof (walk_final_fetch (step Submit (world_typed "15")) 0 _ _
                {| data := map sample [13; 14; 15; 16; 17; 18;
                                       19; 20; 21; 22; 23; 24];
                   pagination := {| total := 120; limit := 12; offset := 12;
                                    total_pages := 10; current_page := 2 |} |}
                H1 H2 H3) as H.
  cbv zeta in H.
  assert (H4 : Z.min (pendingSelection (st (step Submit (world_typed "15"))))
                     (Js.len (map sample [13; 14; 15; 16; 17; 18;
                                          19; 20; 21; 22; 23; 24]))
               < Js.len (map sample [13; 14; 15; 16; 17; 18;
                                     19; 20; 21; 22; 23; 24]))
    by (vm_compute; reflexivity).
  destruct (H (or_introl H4)) as (_ & Ha & Hb & _).
  exact (conj Ha Hb).
Defined.

(** X11: the fetch that advances the walk, in a world whose storage mirrors
    the selection.  When a next-page fetch is answered with a full page that
    its closure needed entirely and that is not the last, the batch appends
    the whole page to the selection and moves to the fetched page; the
    [lazyParams] effect of the render that follows then puts back the
    selection found in storage, so the step ends with the selection and the
    storage it started from.  The pending count has dropped by the page
    length (the difference is rounded as JavaScript subtracts; it is exact
    below 2^53), a load of the fetched page is under way, and while the count is
    still positive two fetches of the page after it are in flight, one for
    each render that saw a new selection array. *)
Theorem walk_advance (w : World) (i : nat) (url : string) (closure : State)
  (body : ApiResponse) :
  crashed w = false ->
  Persisted w ->
  nth_error (inflight w) i = Some (AwaitNextPage url closure) ->
  Js.len (data body) <= pendingSelection closure ->
  (page (lazyParams closure) + 1) * rows (lazyParams closure)
    < totalRecords closure ->
  let r := st (fetchNextPage_resume closure (Fulfilled body) w) in
  let w' := step (Settle i (Fulfilled body)) w in
  selectedArtworkIds r = selectedArtworkIds (st w) ++ map id (data body)
  /\ selectedArtworkIds (st w') = selectedArtworkIds (st w)
  /\ storage w' = storage w
  /\ pendingSelection (st w')
     = Js.sub (pendingSelection (st w)) (Js.len (data body))
  /\ (Z.abs (pendingSelection (st w) - Js.len (data body)) < 2 ^ 53 ->
      pendingSelection (st w') = pendingSelection (st w) - Js.len (data body))
  /\ page (lazyParams (st w')) = page (lazyParams closure) + 1
  /\ loading (st w') = true
  /\ inflight w' =
     remove_nth i (inflight w) ++ page_request r
       :: (if 0 <? Js.sub (pendingSelection (st w)) (Js.len (data body))
           then [next_page_request r;
                 next_page_request (reloaded (selectedArtworkIds (st w)) r)]
           else []).
Proof.
  intros Hcr Hp Hi Hfull Hmore r w'.
  assert (Hk : Z.min (pendingSelection closure) (Js.len (data body))
               = Js.len (data body)) by lia.
  assert (Hb : (Z.min (pendingSelection closure) (Js.len (data body))
                  <? Js.len (data body))
               || (totalRecords closure
                     <=? (page (lazyParams closure) + 1)
                         * rows (lazyParams closure)) = false).
  { apply orb_false_iff. split; [apply Z.ltb_ge | apply Z.leb_gt]; lia. }
  assert (Hall : Js.slice0 (Js.len (data body)) (data body) = data body)
    by (apply slice0_all; lia).
  assert (Er : r = st (setLazyParams (with_page (page (lazyParams closure) + 1))
                    (setPendingSelection
                       (fun prev => Js.sub prev (Js.len (data body)))
                       (setSelectedArtworkIds
                          (fun prev => prev ++ map id (data body)) w)))).
  { unfold r, fetchNextPage_resume. rewrite Hb, Hk, Hall. reflexivity. }
  assert (E : handle (Settle i (Fulfilled body)) (with_changed clean w) =
              setLazyParams (with_page (page (lazyParams closure) + 1))
                (setPendingSelection
                   (fun prev => Js.sub prev (Js.len (data body)))
                   (setSelectedArtworkIds
                      (fun prev => prev ++ map id (data body))
                      (with_inflight (remove_nth i (inflight w))
                         (with_changed clean w))))).
  { simpl handle. rewrite Hi. unfold fetchNextPage_resume.
    rewrite Hb, Hk, Hall. reflexivity. }
  unfold w', step. rewrite Hcr, E.
  match goal with
  | |- context [commit (Some (st w)) ?h] =>
      destruct (commit_reload (st w) h (selectedArtworkIds (st w)))
        as (Hst & Hsto & _ & _ & _ & Hin);
        [exact Hcr | reflexivity | exact Hp |]
  end.
  rewrite Hst, Hsto, Hin, Er. simpl.
  rewrite orb_true_r. simpl.
  split; [reflexivity|]. split; [reflexivity|].
  split; [symmetry; exact Hp|]. split; [reflexivity|].
  split; [intros Hsmall; now apply JsFacts.double_small|].
  split; [reflexivity|]. split; [reflexivity|].
  destruct (0 <? Js.sub (pendingSelection (st w)) (Js.len (data body)));
    reflexivity.
Qed.

Lemma walk_advance_witness :
  selectedArtworkIds
    (st (step (Settle 0 (sample_page 2 120)) (step Submit (world_typed "36"))))
  = selectedArtworkIds (st (step Submit (world_typed "36")))
  /\ page (lazyParams
             (st (step (Settle 0 (sample_page 2 120))
                       (step Submit (world_typed "36")))))
     = page (lazyParams (st (step Submit (world_typed "36")))) + 1.
Proof.
  assert (H1 : crashed (step Submit (world_typed "36")) = false)
    by (vm_compute; reflexivity).
  assert (H2 : Persisted (step Submit (world_typed "36")))
    by (vm_compute; reflexivity).
  assert (H3 : nth_error (inflight (step Submit (world_typed "36"))) 0
               = Some (next_page_request (st (step Submit (world_typed "36")))))
    by (vm_compute; reflexivity).
  pose proof (walk_advance (step Submit (world_typed "36")) 0 _ _
                {| data := map sample [13; 14; 15; 16; 17; 18;
                                       19; 20; 21; 22; 23; 24];
                   pagination := {| total := 120; limit := 12; offset := 12;
                                    total_pages := 10; current_page := 2 |} |}
                H1 H2 H3) as H.
  cbv zeta in H.
  assert (H4 : Js.len (map sample [13; 14; 15; 16; 17; 18;
                                   19; 20; 21; 22; 23; 24])
               <= pendingSelection (st (step Submit (world_typed "36"))))
    by (vm_compute; discriminate).
  assert (H5 : (page (lazyParams (st (step Submit (world_typed "36")))) + 1)
               * rows (lazyParams (st (step Submit (world_typed "36"))))
               < totalRecords (st (step Submit (world_typed "36"))))
    by (vm_compute; reflexivity).
  destruct (H H4 H5) as (_ & Ha & _ & _ & _ & Hb & _).
  exact (conj Ha Hb).
Defined.

(* ===================================================================== *)
(** ** The walk as a whole *)
(* ===================================================================== *)

Lemma handle_keeps_walking (e : Event) (w : World) :
  Walking w ->
  0 < pendingSelection (st (handle e (with_changed clean w))) ->
  selectedArtworkIds_set (changed (handle e (with_changed clean w))) = true
  \/ existsb is_next_page (inflight (handle e (with_changed clean w))) = true.
Proof.
  intros Hw.
  destruct e as [cell rowData checked|checked|value| |f n p|f o| |i res];
    simpl handle.
  - intros _. now left.
  - intros _. destruct checked; now left.
  - intros Hpos. right. exact (Hw Hpos).
  - unfold handleSubmit. simpl st.
    destruct (Js.parseInt (rowSelection (st w))) as [numRows|];
      [|intros Hpos; right; exact (Hw Hpos)].
    destruct (numRows <? 0); [intros Hpos; right; exact (Hw Hpos)|].
    intros _. left.
    destruct (Js.len (map id (artworks (st w))) <? numRows); reflexivity.
  - intros Hpos. right. exact (Hw Hpos).
  - intros Hpos. right. exact (Hw Hpos).
  - intros Hpos. right. exact (Hw Hpos).
  - simpl inflight.
    destruct (nth_error (inflight w) i) as [r|] eqn:Hnth;
      [|intros Hpos; right; exact (Hw Hpos)].
    destruct (handle_settle_walk w i r res Hnth) as (Hhi & _ & Hcase).
    simpl handle in Hhi, Hcase. simpl inflight in Hhi, Hcase.
    rewrite Hnth in Hhi, Hcase.
    destruct r as [u c|u c]; intros Hpos.
    + destruct Hcase as [(Hr & Hsame) | [Hzero | Hsel]].
      * right. rewrite Hhi.
        rewrite (existsb_remove_nth_other _ i _ Hnth Hr).
        apply Hw. now rewrite <- Hsame.
      * lia.
      * now left.
    + destruct Hcase as [(Hr & _) | [Hzero | Hsel]];
        [discriminate | lia | now left].
Qed.

Lemma step_walking (e : Event) (w : World) :
  crashed w = false -> Walking w -> Walking (step e w).
Proof.
  intros Hcr Hw. unfold step. rewrite Hcr.
  destruct (handle_frame e (with_changed clean w)) as (_ & Hc & _).
  destruct (commit_inflight 0 (st w) (handle e (with_changed clean w)))
    as (extra & Hin & _ & _ & _ & _ & Hpend & Hspawn).
  { rewrite Hc. exact Hcr. }
  unfold Walking. rewrite Hpend, Hin, existsb_app. intros Hpos.
  destruct (handle_keeps_walking e w Hw Hpos) as [Hsel|Hex].
  - rewrite (Hspawn Hsel Hpos). apply orb_true_r.
  - now rewrite Hex.
Qed.

Lemma mount_walking (prior : option (list Z)) :
  Walking (mount (option_map Json.stringify prior)).
Proof.
  unfold Walking.
  assert (E : pendingSelection (st (mount (option_map Json.stringify prior)))
              = 0).
  { destruct prior as [l|]; [|reflexivity].
    unfold mount, commit, render. simpl. unfold effect_lazyParams. simpl.
    rewrite JsonFacts.parse_stringify. reflexivity. }
  rewrite E. lia.
Qed.

(** X12: a pending count is never left unattended.  From the moment the
    component is mounted over an empty storage or over a selection it
    stored, and after any sequence of events, a positive pending count
    comes with a next-page fetch in flight. *)
Theorem pending_means_walking (prior : option (list Z)) (es : list Event) :
  0 < pendingSelection
        (st (run es (mount (option_map Json.stringify prior)))) ->
  existsb is_next_page
    (inflight (run es (mount (option_map Json.stringify prior)))) = true.
Proof.
  assert (H : forall w, crashed w = false -> Persisted w -> Walking w ->
                        Walking (run es w)).
  { induction es as [|e es IH]; intros w Hcr Hp Hw; [exact Hw|].
    simpl. apply IH.
    - now apply step_not_crashed.
    - now apply step_persisted.
    - now apply step_walking. }
  exact (H _ (mount_not_crashed prior) (mount_persisted _)
           (mount_walking prior)).
Qed.

Lemma pending_means_walking_witness :
  existsb is_next_page
    (inflight (run [Settle 0 (sample_page 1 120); TypeRowSelection "36";
                    Submit; Settle 0 (sample_page 2 120)]
                   (mount (option_map Json.stringify None)))) = true.
Proof.
  assert (H : 0 < pendingSelection
                    (st (run [Settle 0 (sample_page 1 120);
                              TypeRowSelection "36"; Submit;
                              Settle 0 (sample_page 2 120)]
                             (mount (option_map Json.stringify None)))))
    by (vm_compute; reflexivity).
  exact (pending_means_walking None _ H).
Defined.

(** X13: changing the selection during a walk fetches again.  While a count
    is pending, checking or unchecking a row (from whichever render its cell
    dates) or the header checkbox issues
    one more fetch of the page after the current one, whether or not one is
    already in flight; the paging parameters and the pending count stay as
    they were. *)
Theorem selection_change_refetches (w : World) :
  crashed w = false ->
  0 < pendingSelection (st w) ->
  (forall cell rowData checked,
      let w' := step (CheckRow cell rowData checked) w in
      inflight w' = inflight w ++ [next_page_request (st w')]
      /\ lazyParams (st w') = lazyParams (st w)
      /\ pendingSelection (st w') = pendingSelection (st w))
  /\ (forall checked,
      let w' := step (CheckAll checked) w in
      inflight w' = inflight w ++ [next_page_request (st w')]
      /\ lazyParams (st w') = lazyParams (st w)
      /\ pendingSelection (st w') = pendingSelection (st w)).
Proof.
  intros Hcr Hpos.
  assert (Hb : (0 <? pendingSelection (st w)) = true) by now apply Z.ltb_lt.
  split.
  - intros cell rowData checked w'. subst w'.
    rewrite step_quiet; try assumption; try reflexivity.
    rewrite quiet_effects_inflight, quiet_effects_st. simpl.
    rewrite orb_true_r, Hb. repeat split; reflexivity.
  - intros checked w'. subst w'.
    destruct checked;
      (rewrite step_quiet; try assumption; try reflexivity;
       rewrite quiet_effects_inflight, quiet_effects_st; simpl;
       rewrite orb_true_r, Hb; repeat split; reflexivity).
Qed.

Lemma selection_change_refetches_witness :
  List.length
    (inflight (step (CheckRow (st (world_typed "15")) (sample 1) false)
                    (step Submit (world_typed "15")))) = 2%nat.
Proof.
  assert (H1 : crashed (step Submit (world_typed "15")) = false)
    by (vm_compute; reflexivity).
  assert (H2 : 0 < pendingSelection (st (step Submit (world_typed "15"))))
    by (vm_compute; reflexivity).
  pose proof (proj1 (selection_change_refetches _ H1 H2)
                (st (world_typed "15")) (sample 1) false)
    as (Ha & _).
  cbv zeta in Ha. rewrite Ha, length_app. vm_compute. reflexivity.
Defined.

(* ===================================================================== *)
(** ** The general results at work *)
(* ===================================================================== *)

Lemma world_small_sane : Sane 3 world_small.
Proof.
  split; [vm_compute; reflexivity|].
  split; [vm_compute; reflexivity|].
  split; [vm_compute; repeat split; discriminate|].
  vm_compute. repeat constructor; discriminate.
Qed.

Lemma walk_stops_witness :
  Z.of_nat (List.length [(0%nat, past_the_end)])
    <= load 3 (inflight world_small)
  /\ Sane 3 (settle_all [(0%nat, past_the_end)] world_small).
Proof.
  assert (H : answers 3 [(0%nat, past_the_end)] world_small).
  { split; [vm_compute; constructor|].
    split; [vm_compute; discriminate | exact I]. }
  exact (walk_stops 3 [(0%nat, past_the_end)] world_small world_small_sane H).
Defined.

Lemma drain_ends_witness :
  inflight (drain (fun _ => past_the_end) 16 world_small) = []
  /\ pendingSelection (st (drain (fun _ => past_the_end) 16 world_small)) <= 0.
Proof.
  assert (H2 : Walking world_small) by (intros _; vm_compute; reflexivity).
  assert (H3 : forall u : string, reports_at_most 3 past_the_end)
    by (intros _; vm_compute; discriminate).
  assert (H4 : load 3 (inflight world_small) <= Z.of_nat 16)
    by (vm_compute; discriminate).
  exact (drain_ends 3 (fun _ => past_the_end) 16 world_small
           world_small_sane H2 H3 H4).
Defined.

Lemma page_operations_keep_NoDup_witness :
  NoDup (selectedArtworkIds
           (st (step (CheckRow (st world_first_page) (sample 3) true)
                     (world_all_checked "5"))))
  /\ NoDup (selectedArtworkIds (st (step Submit (world_all_checked "5")))).
Proof.
  assert (H1 : crashed (world_all_checked "5") = false)
    by (vm_compute; reflexivity).
  assert (H2 : NoDup (selectedArtworkIds (st (world_all_checked "5")))).
  { vm_compute. repeat (constructor; [simpl; intuition discriminate|]).
    constructor. }
  assert (H3 : NoDup (selectedArtworkIds (st world_first_page)))
    by (vm_compute; constructor).
  assert (H4 : checkboxTemplate_checked (st world_first_page) (sample 3)
               = false) by (vm_compute; reflexivity).
  assert (H5 : Js.parseInt (rowSelection (st (world_all_checked "5"))) = Some 5)
    by (vm_compute; reflexivity).
  assert (H6 : NoDup (map id (artworks (st (world_all_checked "5"))))).
  { vm_compute. repeat (constructor; [simpl; intuition discriminate|]).
    constructor. }
  assert (H7 : 0 <= 5) by lia.
  pose proof (page_operations_keep_NoDup (world_all_checked "5")
                (st world_first_page) H1 H2 H3) as (Ha & _ & _ & Hb).
  exact (conj (Ha (sample 3) H4) (Hb 5 H5 H7 H6)).
Defined.
